(** * Tooltip (components/tooltip/index.tsx): a shallow embedding

    The component is a pure function of its props, the configuration
    context and the state kept by the [useMergedState] hook, plus two event
    handlers ([onOpenChange], [onPopupAlign]).  The embedding follows the
    source function by function:

    - JavaScript values are the inductive [jsval]; numbers are abstracted to
      integers plus [NaN];
    - a props key that the source tests with [in] is an [option jsval]
      ([None]: key absent, [Some VUndefined]: key present and undefined);
      keys that are only read are a [jsval] ([VUndefined] when absent);
    - style objects are finite maps from property name to value;
    - user callbacks are opaque functions with an identity; invoking one
      appends the pair (function, argument) to the instance's call log.

    The development-time deprecation warnings and the props that pass
    through untouched (motion, delays, ref) have no part in the properties
    below and are left out. *)

From Stdlib Require Import ZArith String List Bool DecimalString.
From stdpp Require Import gmap strings list fin_maps.

Set Warnings "-register-all".
Local Open Scope string_scope.
Local Open Scope Z_scope.

(** ** JavaScript values *)

(** Identity of an opaque function value (callback, render function). *)
Definition fn := nat.

Inductive jsval : Type :=
| VUndefined
| VNull
| VBool (b : bool)
| VNum (z : Z)
| VNaN
| VStr (s : string)
| VFun (f : fn)
| VArr (xs : list jsval)
| VObj (fields : list (string * jsval)).

(** ToBoolean: the falsy values are undefined, null, false, 0, NaN and the
    empty string. *)
Definition truthy (v : jsval) : bool :=
  match v with
  | VUndefined | VNull | VNaN => false
  | VBool b => b
  | VNum z => negb (z =? 0)
  | VStr s => negb (String.eqb s "")
  | VFun _ | VArr _ | VObj _ => true
  end.

(** [v === 0] *)
Definition is_zero (v : jsval) : bool :=
  match v with
  | VNum z => z =? 0
  | _ => false
  end.

(** [v !== undefined] *)
Definition is_defined (v : jsval) : bool :=
  match v with
  | VUndefined => false
  | _ => true
  end.

(** [a || b] *)
Definition js_or (a b : jsval) : jsval := if truthy a then a else b.

(** Reading a key of the props object: a missing key reads as undefined. *)
Definition get (o : option jsval) : jsval := default VUndefined o.

(** The template-literal rendering of a number. *)
Definition string_of_Z (z : Z) : string := NilZero.string_of_int (Z.to_int z).

(** ** The [classnames] package

    [classNames(...args)] collects class entries and joins them with a
    space: a truthy string or number is an entry, an array contributes the
    joined result of its elements when that is not empty, an object
    contributes its keys whose value is truthy, in key order. *)
Fixpoint classEntries (arg : jsval) : list string :=
  match arg with
  | VStr s => if String.eqb s "" then [] else [s]
  | VNum z => if z =? 0 then [] else [string_of_Z z]
  | VArr xs =>
      let inner := String.concat " " (List.flat_map classEntries xs) in
      if String.eqb inner "" then [] else [inner]
  | VObj fields => List.map fst (List.filter (fun kv => truthy (snd kv)) fields)
  | _ => []
  end.

Definition classNames (args : list jsval) : string :=
  String.concat " " (List.flat_map classEntries args).

(** Writing [{ ..., [k]: v }] in an object literal: a key written twice keeps
    its first position and takes the last value. *)
Fixpoint obj_set (k : string) (v : jsval) (fields : list (string * jsval))
  : list (string * jsval) :=
  match fields with
  | [] => [(k, v)]
  | (k', v') :: rest =>
      if String.eqb k k' then (k', v) :: rest else (k', v') :: obj_set k v rest
  end.

(** ** React nodes and elements *)

Inductive elementType : Type :=
| HostTag (tag : string)
| Fragment
| Component (ANT_BUTTON ANT_SWITCH ANT_RADIO : jsval).

Module Elem.
(** The props of a child element that the tooltip reads or writes. *)
Record props : Type := {
  disabled : jsval;
  loading : jsval;
  block : jsval;
  style : option (gmap string jsval);
  className : jsval;
}.

Definition none : props :=
  {| disabled := VUndefined; loading := VUndefined; block := VUndefined;
     style := None; className := VUndefined |}.
End Elem.

Inductive node : Type :=
| Value (v : jsval)
| Element (type : elementType) (props : Elem.props) (children : node).

(** [element.type === 'button'] *)
Definition is_tag (ty : elementType) (tag : string) : bool :=
  match ty with
  | HostTag t => String.eqb t tag
  | _ => false
  end.

(** [elementType.__ANT_BUTTON === true] and its siblings; a host tag or the
    fragment symbol has no such property. *)
Definition is_true (v : jsval) : bool :=
  match v with
  | VBool true => true
  | _ => false
  end.

Definition ANT_BUTTON (ty : elementType) : jsval :=
  match ty with Component b _ _ => b | _ => VUndefined end.
Definition ANT_SWITCH (ty : elementType) : jsval :=
  match ty with Component _ s _ => s | _ => VUndefined end.
Definition ANT_RADIO (ty : elementType) : jsval :=
  match ty with Component _ _ r => r | _ => VUndefined end.

(** Modelled from the spec: [isValidElement], [isFragment] and
    [cloneElement] of [_util/reactNode], which the spec calls the rendering
    framework's element model (cloning, fragment detection). A node is a
    valid element when it is an element; it is a fragment when it is an
    element of the fragment type; cloning overrides the given props and
    keeps the type and the children. *)
Definition isValidElement (n : node) : bool :=
  match n with
  | Element _ _ _ => true
  | Value _ => false
  end.

Definition isFragment (n : node) : bool :=
  match n with
  | Element Fragment _ _ => true
  | _ => false
  end.

Definition cloneElement_style_className
  (n : node) (st : option (gmap string jsval)) (cls : jsval) : node :=
  match n with
  | Element ty p ch =>
      Element ty
        {| Elem.disabled := Elem.disabled p; Elem.loading := Elem.loading p;
           Elem.block := Elem.block p; Elem.style := st; Elem.className := cls |}
        ch
  | Value _ => n
  end.

Definition cloneElement_className (n : node) (cls : jsval) : node :=
  match n with
  | Element ty p ch =>
      Element ty
        {| Elem.disabled := Elem.disabled p; Elem.loading := Elem.loading p;
           Elem.block := Elem.block p; Elem.style := Elem.style p;
           Elem.className := cls |}
        ch
  | Value _ => n
  end.

(** ** splitObject *)

(** A style object is a plain object: the map holds its own properties, and
    it inherits the members of [Object.prototype], each a built-in function
    (an opaque function value; the identities from 100 on stand for the
    built-ins). The inherited accessor [__proto__] is left out of the list:
    [key in obj] holds for it, but assigning it writes the prototype of the
    target and makes no property, and deleting it removes nothing. *)
Definition ObjectPrototype : list (string * jsval) :=
  [("constructor", VFun 100%nat); ("__defineGetter__", VFun 101%nat);
   ("__defineSetter__", VFun 102%nat); ("hasOwnProperty", VFun 103%nat);
   ("__lookupGetter__", VFun 104%nat); ("__lookupSetter__", VFun 105%nat);
   ("isPrototypeOf", VFun 106%nat); ("propertyIsEnumerable", VFun 107%nat);
   ("toString", VFun 108%nat); ("valueOf", VFun 109%nat);
   ("toLocaleString", VFun 110%nat)].

Definition inherited (key : string) : option jsval :=
  snd <$> List.find (fun member => String.eqb (fst member) key) ObjectPrototype.

(** [obj[key]] when [key in obj]: the own property first, then the inherited
    one. *)
Definition lookup_in (o : gmap string jsval) (key : string) : option jsval :=
  match o !! key with
  | Some v => Some v
  | None => inherited key
  end.

(** [splitObject(obj, keys)]: [picked] holds the keys of [keys] that are in
    [obj], [omitted] is a copy of [obj] without them. An undefined [obj]
    gives two empty objects. *)
Definition splitObject_step (obj : option (gmap string jsval))
  (acc : gmap string jsval * gmap string jsval) (key : string)
  : gmap string jsval * gmap string jsval :=
  match obj with
  | Some o =>
      match lookup_in o key with
      | Some v => (<[key := v]> (fst acc), delete key (snd acc))
      | None => acc
      end
  | None => acc
  end.

Definition splitObject (obj : option (gmap string jsval)) (keys : list string)
  : gmap string jsval * gmap string jsval :=
  fold_left (splitObject_step obj) keys (∅, default ∅ obj).

(** ** getDisabledCompatibleChildren *)

(** The layout related style properties that move up to the wrapper. *)
Definition layoutKeys : list string :=
  ["position"; "left"; "right"; "top"; "bottom"; "float"; "display"; "zIndex"].

(** The condition of the [if]: a disabled button (native or marked
    [__ANT_BUTTON]), a disabled or loading switch, a disabled radio. *)
Definition needsWrapper (ty : elementType) (p : Elem.props) : bool :=
  ((is_true (ANT_BUTTON ty) || is_tag ty "button") && truthy (Elem.disabled p))
  || (is_true (ANT_SWITCH ty) && (truthy (Elem.disabled p) || truthy (Elem.loading p)))
  || (is_true (ANT_RADIO ty) && truthy (Elem.disabled p)).

(** [{ display: 'inline-block', ...picked, cursor: 'not-allowed', width: ... }] *)
Definition spanStyle (picked : gmap string jsval) (block : jsval) : gmap string jsval :=
  <["width" := if truthy block then VStr "100%" else VNull]>
    (<["cursor" := VStr "not-allowed"]>
       (picked ∪ {["display" := VStr "inline-block"]})).

(** [{ ...omitted, pointerEvents: 'none' }] *)
Definition buttonStyle (omitted : gmap string jsval) : gmap string jsval :=
  <["pointerEvents" := VStr "none"]> omitted.

Definition getDisabledCompatibleChildren (element : node) (prefixCls : string) : node :=
  match element with
  | Element ty p ch =>
      if needsWrapper ty p then
        let '(picked, omitted) := splitObject (Elem.style p) layoutKeys in
        let child := cloneElement_style_className element (Some (buttonStyle omitted)) VNull in
        Element (HostTag "span")
          {| Elem.disabled := VUndefined; Elem.loading := VUndefined;
             Elem.block := VUndefined;
             Elem.style := Some (spanStyle picked (Elem.block p));
             Elem.className :=
               VStr (classNames [Elem.className p;
                                 VStr (prefixCls ++ "-disabled-compatible-wrapper")]) |}
          child
      else element
  | Value _ => element
  end.

(** ** Props, context and instance state *)

(** A placement table in [Object.keys] order: each name with the two
    alignment points of its entry. *)
Definition placements : Type := list (string * (string * string)).

Module Props.
Record t : Type := {
  open : option jsval;
  visible : option jsval;
  defaultOpen : jsval;
  defaultVisible : jsval;
  onOpenChange : option fn;
  onVisibleChange : option fn;
  afterOpenChange : option fn;
  afterVisibleChange : option fn;
  title : jsval;
  overlay : jsval;
  prefixCls : option string;
  openClassName : option string;
  overlayClassName : jsval;
  color : option string;
  overlayInnerStyle : option (gmap string jsval);
  builtinPlacements : option placements;
  arrowPointAtCenter : jsval;
  autoAdjustOverflow : jsval;
  getPopupContainer : option fn;
  getTooltipContainer : option fn;
  children : node;
}.
End Props.

(** [React.useContext(ConfigContext)] *)
Module Context.
Record t : Type := {
  getPopupContainer : option fn;
  getPrefixCls : option string -> option string -> string;
  direction : option string;
}.
End Context.

(** The state of one mounted tooltip: the inner value of the merged-state
    hook and the log of callback invocations, oldest first. *)
Module Instance.
Record t : Type := {
  innerValue : jsval;
  calls : list (fn * bool);
}.
End Instance.

(** Modelled from the spec: the [useMergedState] hook of rc-util, the
    standard controlled-component precedence: explicit value prop, then
    explicit default-value prop, then the internal default. The inner value
    starts from that precedence; the merged value is the controlled value
    when it is not undefined and the inner value otherwise; the setter
    writes the inner value. *)
Definition useMergedState_init (defaultStateValue value defaultValue : jsval) : jsval :=
  if is_defined value then value
  else if is_defined defaultValue then defaultValue
  else defaultStateValue.

Definition useMergedState_value (value innerValue : jsval) : jsval :=
  if is_defined value then value else innerValue.

Definition setInnerValue (v : jsval) (st : Instance.t) : Instance.t :=
  {| Instance.innerValue := v; Instance.calls := Instance.calls st |}.

(** [f?.(vis)] for a callback prop. *)
Definition invoke (f : option fn) (vis : bool) (st : Instance.t) : Instance.t :=
  match f with
  | Some g =>
      {| Instance.innerValue := Instance.innerValue st;
         Instance.calls := Instance.calls st ++ [(g, vis)] |}
  | None => st
  end.

(** The calls made by [f?.(vis)]. *)
Definition called (f : option fn) (vis : bool) : list (fn * bool) :=
  match f with
  | Some g => [(g, vis)]
  | None => []
  end.

(** ** The Tooltip component *)

(** [value: props.open !== undefined ? props.open : props.visible] *)
Definition mergedValue (props : Props.t) : jsval :=
  if is_defined (get (Props.open props)) then get (Props.open props)
  else get (Props.visible props).

(** [defaultValue: props.defaultOpen !== undefined ? props.defaultOpen : props.defaultVisible] *)
Definition mergedDefaultValue (props : Props.t) : jsval :=
  if is_defined (Props.defaultOpen props) then Props.defaultOpen props
  else Props.defaultVisible props.

(** The state of a freshly mounted instance. *)
Definition mount (props : Props.t) : Instance.t :=
  {| Instance.innerValue :=
       useMergedState_init (VBool false) (mergedValue props) (mergedDefaultValue props);
     Instance.calls := [] |}.

(** [const [open, setOpen] = useMergedState(false, {...})] *)
Definition open (props : Props.t) (st : Instance.t) : jsval :=
  useMergedState_value (mergedValue props) (Instance.innerValue st).

Definition setOpen (v : jsval) (st : Instance.t) : Instance.t := setInnerValue v st.

Definition isNoTitle (props : Props.t) : bool :=
  negb (truthy (Props.title props)) && negb (truthy (Props.overlay props))
  && negb (is_zero (Props.title props)).

Definition onOpenChange (props : Props.t) (vis : bool) (st : Instance.t) : Instance.t :=
  let st1 := setOpen (if isNoTitle props then VBool false else VBool vis) st in
  if negb (isNoTitle props) then
    let st2 := invoke (Props.onOpenChange props) vis st1 in
    invoke (Props.onVisibleChange props) vis st2
  else st1.

Definition getOverlay (props : Props.t) : jsval :=
  if is_zero (Props.title props) then Props.title props
  else js_or (js_or (Props.overlay props) (Props.title props)) (VStr "").

(** ['open' in props], ['visible' in props] *)
Definition has_key (o : option jsval) : bool :=
  match o with Some _ => true | None => false end.

Definition tempOpen (props : Props.t) (st : Instance.t) : jsval :=
  if negb (has_key (Props.open props)) && negb (has_key (Props.visible props))
     && isNoTitle props
  then VBool false
  else open props st.

(** [placement.indexOf(s) >= 0] *)
Definition contains (s placement : string) : bool :=
  match String.index 0 s placement with
  | Some _ => true
  | None => false
  end.

(** The popup's DOM node: its bounding rectangle and the transform origin
    of its inline style. *)
Module Dom.
Record t : Type := {
  width : Z;
  height : Z;
  transformOrigin : string;
}.
End Dom.

(** The alignment result reported by the positioning primitive. *)
Module Align.
Record t : Type := {
  points : string * string;
  offset : Z * Z;
}.
End Align.

(** What the component hands to the popup primitive. [defaultVisible] and
    [afterVisibleChange] reach it only through [{...otherProps}], under the
    key the caller used; [afterOpenChange] is a key the primitive does not
    read. *)
Module Rc.
Record t : Type := {
  prefixCls : string;
  overlayClassName : string;
  getTooltipContainer : option fn;
  builtinPlacements : placements;
  overlay : jsval;
  visible : jsval;
  defaultVisible : jsval;
  afterVisibleChange : option fn;
  afterOpenChange : option fn;
  overlayInnerStyle : option (gmap string jsval);
  arrowContentStyle : option (gmap string jsval);
  children : node;
}.
End Rc.


(** Sample imports and inputs used by the examples below. *)
Definition samplePresetColors : list string :=
  ["pink"; "red"; "yellow"; "orange"; "cyan"; "green"; "blue"; "purple";
   "geekblue"; "magenta"; "volcano"; "gold"; "lime"].

Definition samplePlacements : placements :=
  [("left", ("cr", "cl")); ("right", ("cl", "cr"));
   ("top", ("bc", "tc")); ("bottom", ("tc", "bc"));
   ("topLeft", ("bl", "tl")); ("leftTop", ("tr", "tl"));
   ("topRight", ("br", "tr")); ("rightTop", ("tl", "tr"));
   ("bottomRight", ("tr", "br")); ("rightBottom", ("bl", "br"));
   ("bottomLeft", ("tl", "bl")); ("leftBottom", ("br", "bl"))].

Definition sampleContext : Context.t :=
  {| Context.getPopupContainer := None;
     Context.getPrefixCls := fun suffix custom =>
       match custom with
       | Some c => c
       | None => match suffix with Some s => "ant-" ++ s | None => "ant" end
       end;
     Context.direction := None |}.

(** Props with every key absent and no children. *)
Definition noProps : Props.t :=
  {| Props.open := None; Props.visible := None;
     Props.defaultOpen := VUndefined; Props.defaultVisible := VUndefined;
     Props.onOpenChange := None; Props.onVisibleChange := None;
     Props.afterOpenChange := None; Props.afterVisibleChange := None;
     Props.title := VUndefined; Props.overlay := VUndefined;
     Props.prefixCls := None; Props.openClassName := None;
     Props.overlayClassName := VUndefined; Props.color := None;
     Props.overlayInnerStyle := None; Props.builtinPlacements := None;
     Props.arrowPointAtCenter := VBool false; Props.autoAdjustOverflow := VBool true;
     Props.getPopupContainer := None; Props.getTooltipContainer := None;
     Props.children := Value VUndefined |}.

Section Tooltip.

(** [PresetColorTypes] of [_util/colors] and [getPlacements] of
    [_util/placements] are imports of the module. The preset names are
    taken to be plain words, as colour names are: the regular expression
    built from them then matches exactly a name, or a name followed by
    [-inverse]. *)
Variable PresetColorTypes : list string.
Variable getPlacements : jsval -> jsval -> placements.

(** The alternatives of [PresetColorTypes.join('|')]: joining no name
    gives one empty alternative. *)
Definition presetAlternatives : list string :=
  match PresetColorTypes with
  | [] => [""]
  | _ => PresetColorTypes
  end.

(** [PresetColorRegex.test(color)] *)
Definition PresetColorRegex_test (color : string) : bool :=
  existsb (fun p => String.eqb color p || String.eqb color (p ++ "-inverse"))
    presetAlternatives.

(** [color && PresetColorRegex.test(color)] *)
Definition colorIsPreset (color : option string) : jsval :=
  match color with
  | None => VUndefined
  | Some c => if String.eqb c "" then VStr c else VBool (PresetColorRegex_test c)
  end.

(** [`${color}`] *)
Definition colorText (color : option string) : string := default "undefined" color.

(** The object argument of the overlay's [classNames] call. *)
Definition overlayModifiers (prefixCls : string) (direction color : option string)
  : list (string * jsval) :=
  obj_set (prefixCls ++ "-" ++ colorText color) (colorIsPreset color)
    (obj_set (prefixCls ++ "-rtl")
       (VBool (bool_decide (direction = Some "rtl"))) []).

Definition customOverlayClassName (prefixCls : string) (overlayClassName : jsval)
  (direction color : option string) : string :=
  classNames [overlayClassName; VObj (overlayModifiers prefixCls direction color)].

(** The class entries that [customOverlayClassName] joins. *)
Definition overlayClassList (prefixCls : string) (overlayClassName : jsval)
  (direction color : option string) : list string :=
  classEntries overlayClassName
  ++ classEntries (VObj (overlayModifiers prefixCls direction color)).

(** [color && !PresetColorRegex.test(color)] *)
Definition colorIsCustom (color : option string) : bool :=
  match color with
  | None => false
  | Some c => negb (String.eqb c "") && negb (PresetColorRegex_test c)
  end.

Definition formattedOverlayInnerStyle (overlayInnerStyle : option (gmap string jsval))
  (color : option string) : option (gmap string jsval) :=
  if colorIsCustom color
  then Some (<["background" := VStr (colorText color)]> (default ∅ overlayInnerStyle))
  else overlayInnerStyle.

Definition arrowContentStyle (color : option string) : option (gmap string jsval) :=
  if colorIsCustom color
  then Some {["--antd-arrow-background-color" := VStr (colorText color)]}
  else None.

Definition getTooltipPlacements (props : Props.t) : placements :=
  match Props.builtinPlacements props with
  | Some table => table
  | None => getPlacements (Props.arrowPointAtCenter props) (Props.autoAdjustOverflow props)
  end.

(** [Object.keys(placements).find(key => ...)] *)
Definition findPlacement (table : placements) (points : string * string) : option string :=
  fst <$> List.find
    (fun entry => String.eqb (fst (snd entry)) (fst points)
                  && String.eqb (snd (snd entry)) (snd points))
    table.

Definition px (z : Z) : string := string_of_Z z ++ "px".

Definition originTop (placement : string) (rect : Dom.t) (align : Align.t) : string :=
  if contains "top" placement || contains "Bottom" placement
  then px (Dom.height rect - snd (Align.offset align))
  else if contains "Top" placement || contains "bottom" placement
  then px (- snd (Align.offset align))
  else "50%".

Definition originLeft (placement : string) (rect : Dom.t) (align : Align.t) : string :=
  if contains "left" placement || contains "Right" placement
  then px (Dom.width rect - fst (Align.offset align))
  else if contains "right" placement || contains "Left" placement
  then px (- fst (Align.offset align))
  else "50%".

Definition onPopupAlign (props : Props.t) (domNode : Dom.t) (align : Align.t) : Dom.t :=
  match findPlacement (getTooltipPlacements props) (Align.points align) with
  | None => domNode
  | Some placement =>
      if String.eqb placement "" then domNode
      else
        {| Dom.width := Dom.width domNode; Dom.height := Dom.height domNode;
           Dom.transformOrigin :=
             originLeft placement domNode align ++ " " ++ originTop placement domNode align |}
  end.

(** [isValidElement(children) && !isFragment(children) ? children : <span>{children}</span>] *)
Definition normalizeChildren (children : node) : node :=
  if isValidElement children && negb (isFragment children) then children
  else Element (HostTag "span") Elem.none children.

Definition nodeClassName (n : node) : jsval :=
  match n with
  | Element _ p _ => Elem.className p
  | Value _ => VUndefined
  end.

(** [openClassName || `${prefixCls}-open`] *)
Definition openClass (openClassName : option string) (prefixCls : string) : string :=
  match openClassName with
  | Some c => if String.eqb c "" then prefixCls ++ "-open" else c
  | None => prefixCls ++ "-open"
  end.

Definition childCls (child : node) (openClassName : option string) (prefixCls : string)
  : jsval :=
  let cls := nodeClassName child in
  if negb (truthy cls) || match cls with VStr _ => true | _ => false end
  then VStr (classNames [cls; VObj (obj_set (openClass openClassName prefixCls) (VBool true) [])])
  else cls.

(** The render function. *)
Definition render (props : Props.t) (ctx : Context.t) (st : Instance.t) : Rc.t :=
  let prefixCls := Context.getPrefixCls ctx (Some "tooltip") (Props.prefixCls props) in
  let child := getDisabledCompatibleChildren (normalizeChildren (Props.children props)) prefixCls in
  {| Rc.prefixCls := prefixCls;
     Rc.overlayClassName :=
       customOverlayClassName prefixCls (Props.overlayClassName props)
         (Context.direction ctx) (Props.color props);
     Rc.getTooltipContainer :=
       match Props.getPopupContainer props with
       | Some f => Some f
       | None =>
           match Props.getTooltipContainer props with
           | Some f => Some f
           | None => Context.getPopupContainer ctx
           end
       end;
     Rc.builtinPlacements := getTooltipPlacements props;
     Rc.overlay := getOverlay props;
     Rc.visible := tempOpen props st;
     Rc.defaultVisible := Props.defaultVisible props;
     Rc.afterVisibleChange := Props.afterVisibleChange props;
     Rc.afterOpenChange := Props.afterOpenChange props;
     Rc.overlayInnerStyle :=
       formattedOverlayInnerStyle (Props.overlayInnerStyle props) (Props.color props);
     Rc.arrowContentStyle := arrowContentStyle (Props.color props);
     Rc.children :=
       if truthy (tempOpen props st)
       then cloneElement_className child
              (childCls child (Props.openClassName props) prefixCls)
       else child |}.

End Tooltip.

(** Sample props for the examples. *)
Definition controlledOpenProps : Props.t :=
  {| Props.open := Some (VBool true); Props.visible := None;
     Props.defaultOpen := VUndefined; Props.defaultVisible := VUndefined;
     Props.onOpenChange := None; Props.onVisibleChange := None;
     Props.afterOpenChange := None; Props.afterVisibleChange := None;
     Props.title := VUndefined; Props.overlay := VUndefined;
     Props.prefixCls := None; Props.openClassName := None;
     Props.overlayClassName := VUndefined; Props.color := None;
     Props.overlayInnerStyle := None; Props.builtinPlacements := None;
     Props.arrowPointAtCenter := VBool false; Props.autoAdjustOverflow := VBool true;
     Props.getPopupContainer := None; Props.getTooltipContainer := None;
     Props.children := Value VUndefined |}.

(** No title, no overlay, and the key [open] present with the value
    undefined. *)
Definition undefinedOpenProps : Props.t :=
  {| Props.open := Some VUndefined; Props.visible := None;
     Props.defaultOpen := VUndefined; Props.defaultVisible := VUndefined;
     Props.onOpenChange := None; Props.onVisibleChange := None;
     Props.afterOpenChange := None; Props.afterVisibleChange := None;
     Props.title := VUndefined; Props.overlay := VUndefined;
     Props.prefixCls := None; Props.openClassName := None;
     Props.overlayClassName := VUndefined; Props.color := None;
     Props.overlayInnerStyle := None; Props.builtinPlacements := None;
     Props.arrowPointAtCenter := VBool false; Props.autoAdjustOverflow := VBool true;
     Props.getPopupContainer := None; Props.getTooltipContainer := None;
     Props.children := Value VUndefined |}.

(** [title], [overlay] and the two change callbacks on top of [noProps]. *)
Definition contentProps (title overlay : jsval) (onOpen onVisible : option fn) : Props.t :=
  {| Props.open := None; Props.visible := None;
     Props.defaultOpen := VUndefined; Props.defaultVisible := VUndefined;
     Props.onOpenChange := onOpen; Props.onVisibleChange := onVisible;
     Props.afterOpenChange := None; Props.afterVisibleChange := None;
     Props.title := title; Props.overlay := overlay;
     Props.prefixCls := None; Props.openClassName := None;
     Props.overlayClassName := VUndefined; Props.color := None;
     Props.overlayInnerStyle := None; Props.builtinPlacements := None;
     Props.arrowPointAtCenter := VBool false; Props.autoAdjustOverflow := VBool true;
     Props.getPopupContainer := None; Props.getTooltipContainer := None;
     Props.children := Value VUndefined |}.

(** A titled tooltip given the after-change callback under the legacy name
    or under the modern name. *)
Definition afterChangeProps (afterOpen afterVisible : option fn) : Props.t :=
  {| Props.open := None; Props.visible := None;
     Props.defaultOpen := VUndefined; Props.defaultVisible := VUndefined;
     Props.onOpenChange := None; Props.onVisibleChange := None;
     Props.afterOpenChange := afterOpen; Props.afterVisibleChange := afterVisible;
     Props.title := VStr "hi"; Props.overlay := VUndefined;
     Props.prefixCls := None; Props.openClassName := None;
     Props.overlayClassName := VUndefined; Props.color := None;
     Props.overlayInnerStyle := None; Props.builtinPlacements := None;
     Props.arrowPointAtCenter := VBool false; Props.autoAdjustOverflow := VBool true;
     Props.getPopupContainer := None; Props.getTooltipContainer := None;
     Props.children := Value VUndefined |}.

Definition sampleGetPlacements (arrowPointAtCenter autoAdjustOverflow : jsval) : placements :=
  samplePlacements.

Definition sampleInstance : Instance.t :=
  {| Instance.innerValue := VBool true; Instance.calls := [] |}.

(** A titled tooltip with the members of the first three alias pairs. *)
Definition aliasProps (open visible : option jsval) (defaultOpen defaultVisible : jsval)
  (onOpen onVisible : option fn) : Props.t :=
  {| Props.open := open; Props.visible := visible;
     Props.defaultOpen := defaultOpen; Props.defaultVisible := defaultVisible;
     Props.onOpenChange := onOpen; Props.onVisibleChange := onVisible;
     Props.afterOpenChange := None; Props.afterVisibleChange := None;
     Props.title := VStr "hi"; Props.overlay := VUndefined;
     Props.prefixCls := None; Props.openClassName := None;
     Props.overlayClassName := VUndefined; Props.color := None;
     Props.overlayInnerStyle := None; Props.builtinPlacements := None;
     Props.arrowPointAtCenter := VBool false; Props.autoAdjustOverflow := VBool true;
     Props.getPopupContainer := None; Props.getTooltipContainer := None;
     Props.children := Value VUndefined |}.

(** A titled tooltip with a colour. *)
Definition colorProps (color : option string) : Props.t :=
  {| Props.open := None; Props.visible := None;
     Props.defaultOpen := VUndefined; Props.defaultVisible := VUndefined;
     Props.onOpenChange := None; Props.onVisibleChange := None;
     Props.afterOpenChange := None; Props.afterVisibleChange := None;
     Props.title := VStr "hi"; Props.overlay := VUndefined;
     Props.prefixCls := None; Props.openClassName := None;
     Props.overlayClassName := VUndefined; Props.color := color;
     Props.overlayInnerStyle := None; Props.builtinPlacements := None;
     Props.arrowPointAtCenter := VBool false; Props.autoAdjustOverflow := VBool true;
     Props.getPopupContainer := None; Props.getTooltipContainer := None;
     Props.children := Value VUndefined |}.

(** A disabled native button with a positioned, coloured style. *)
Definition disabledButton : Elem.props :=
  {| Elem.disabled := VBool true; Elem.loading := VUndefined; Elem.block := VUndefined;
     Elem.style := Some (<["position" := VStr "absolute"]> {["color" := VStr "red"]});
     Elem.className := VStr "btn" |}.

(** A 100 by 40 popup aligned above its target with a 4 pixel gap. *)
Definition sampleDom : Dom.t :=
  {| Dom.width := 100; Dom.height := 40; Dom.transformOrigin := "" |}.

Definition sampleAlign : Align.t :=
  {| Align.points := ("bc", "tc"); Align.offset := (0, -4) |}.

(** ** Deprecation warnings, event series and further samples *)

(** The deprecated prop names with their replacements, in the order the
    component walks them. *)
Definition deprecatedNames : list (string * string) :=
  [("visible", "open"); ("defaultVisible", "defaultOpen");
   ("onVisibleChange", "onOpenChange"); ("afterVisibleChange", "afterOpenChange")].

Definition deprecationMessage (deprecatedName newName : string) : string :=
  "`" ++ deprecatedName
  ++ "` is deprecated which will be removed in next major version, please use `"
  ++ newName ++ "` instead.".

(** The messages of the [warning] calls whose condition
    [!(deprecatedName in props)] is false, in call order; [keys] are the keys
    of the props object and [production] is
    [process.env.NODE_ENV === 'production']. *)
Definition deprecationWarnings (production : bool) (keys : gset string) : list string :=
  if production then []
  else
    List.flat_map
      (fun pair => if bool_decide (fst pair ∈ keys)
                   then [deprecationMessage (fst pair) (snd pair)]
                   else [])
      deprecatedNames.

(** The popup primitive reporting a series of visibility changes, oldest
    first, each one handled by [onOpenChange]. *)
Definition relay (props : Props.t) (events : list bool) (st : Instance.t) : Instance.t :=
  fold_left (fun s vis => onOpenChange props vis s) events st.

(** The first value of a list that is not undefined. *)
Fixpoint firstDefined (candidates : list jsval) (fallback : jsval) : jsval :=
  match candidates with
  | [] => fallback
  | v :: rest => if is_defined v then v else firstDefined rest fallback
  end.

(** The class handed to the wrapper span of a disabled child. *)
Definition wrapperClass (prefixCls : string) : string :=
  prefixCls ++ "-disabled-compatible-wrapper".

(** Props with the given children and open class on top of a titled
    tooltip that is controlled open. *)
Definition openProps (children : node) (openClassName : option string) : Props.t :=
  {| Props.open := Some (VBool true); Props.visible := None;
     Props.defaultOpen := VUndefined; Props.defaultVisible := VUndefined;
     Props.onOpenChange := None; Props.onVisibleChange := None;
     Props.afterOpenChange := None; Props.afterVisibleChange := None;
     Props.title := VStr "hi"; Props.overlay := VUndefined;
     Props.prefixCls := None; Props.openClassName := openClassName;
     Props.overlayClassName := VUndefined; Props.color := None;
     Props.overlayInnerStyle := None; Props.builtinPlacements := None;
     Props.arrowPointAtCenter := VBool false; Props.autoAdjustOverflow := VBool true;
     Props.getPopupContainer := None; Props.getTooltipContainer := None;
     Props.children := children |}.

(** A titled tooltip with its own placement table. *)
Definition tableProps (table : placements) : Props.t :=
  {| Props.open := None; Props.visible := None;
     Props.defaultOpen := VUndefined; Props.defaultVisible := VUndefined;
     Props.onOpenChange := None; Props.onVisibleChange := None;
     Props.afterOpenChange := None; Props.afterVisibleChange := None;
     Props.title := VStr "hi"; Props.overlay := VUndefined;
     Props.prefixCls := None; Props.openClassName := None;
     Props.overlayClassName := VUndefined; Props.color := None;
     Props.overlayInnerStyle := None; Props.builtinPlacements := Some table;
     Props.arrowPointAtCenter := VBool false; Props.autoAdjustOverflow := VBool true;
     Props.getPopupContainer := None; Props.getTooltipContainer := None;
     Props.children := Value VUndefined |}.

(** * Properties *)

(** ** Open state *)

Lemma is_defined_true (v : jsval) : v <> VUndefined -> is_defined v = true.
Proof. destruct v; [congruence | reflexivity..]. Qed.

Lemma is_zero_false (v : jsval) : v <> VNum 0 -> is_zero v = false.
Proof.
  intros Hv. destruct v as [| | |z| | | | |]; try reflexivity.
  cbn. destruct (Z.eqb_spec z 0) as [->|]; [congruence | reflexivity].
Qed.

(** C1, as stated, fails: with neither title nor overlay and the controlled
    prop [open] set to true, the open state handed to the popup primitive is
    true. *)
Lemma forced_closed_counterexample :
  Props.title controlledOpenProps = VUndefined
  /\ Props.overlay controlledOpenProps = VUndefined
  /\ Rc.visible (render samplePresetColors sampleGetPlacements controlledOpenProps
                   sampleContext (mount controlledOpenProps)) = VBool true.
Proof. repeat split. Qed.

(** C1, amended: when title and overlay are absent (falsy), title is not the
    literal 0 and neither the [open] nor the [visible] key is in the props,
    the open state handed to the popup primitive is false, whatever the
    internal state. When the [open] or the [visible] key is in the props, the
    merged open state is handed on as it is, whatever the content: the
    controlled value ([open] when it is not undefined, [visible] otherwise)
    when that is not undefined, and the internal state value otherwise. *)
Theorem forced_closed_when_uncontrolled
  (PresetColorTypes : list string) (getPlacements : jsval -> jsval -> placements)
  (props : Props.t) (ctx : Context.t) (st : Instance.t) :
  (Props.open props = None ->
   Props.visible props = None ->
   truthy (Props.title props) = false ->
   truthy (Props.overlay props) = false ->
   Props.title props <> VNum 0 ->
   Rc.visible (render PresetColorTypes getPlacements props ctx st) = VBool false)
  /\ (Props.open props <> None \/ Props.visible props <> None ->
      (mergedValue props <> VUndefined ->
       Rc.visible (render PresetColorTypes getPlacements props ctx st) = mergedValue props)
      /\ (mergedValue props = VUndefined ->
          Rc.visible (render PresetColorTypes getPlacements props ctx st)
          = Instance.innerValue st)).
Proof.
  cbn [render Rc.visible]. unfold tempOpen. split.
  - intros Hopen Hvisible Htitle Hoverlay Hzero. unfold isNoTitle.
    rewrite Hopen, Hvisible, Htitle, Hoverlay, (is_zero_false _ Hzero). reflexivity.
  - intros Hkey.
    assert (negb (has_key (Props.open props)) && negb (has_key (Props.visible props))
            = false) as ->.
    { destruct (Props.open props), (Props.visible props); try reflexivity.
      destruct Hkey as [Hkey|Hkey]; congruence. }
    cbn [andb]. unfold open, useMergedState_value. split.
    + intros Hcontrolled. rewrite (is_defined_true _ Hcontrolled). reflexivity.
    + intros Huncontrolled. rewrite Huncontrolled. reflexivity.
Qed.

Lemma forced_closed_when_uncontrolled_witness :
  (Props.open noProps = None
   /\ Props.visible noProps = None
   /\ Rc.visible (render samplePresetColors sampleGetPlacements noProps
                    sampleContext sampleInstance) = VBool false)
  /\ (Props.open controlledOpenProps <> None
      /\ mergedValue controlledOpenProps <> VUndefined
      /\ Rc.visible (render samplePresetColors sampleGetPlacements controlledOpenProps
                       sampleContext (setOpen (VBool false) sampleInstance)) = VBool true)
  /\ (Props.open undefinedOpenProps <> None
      /\ mergedValue undefinedOpenProps = VUndefined
      /\ Rc.visible (render samplePresetColors sampleGetPlacements undefinedOpenProps
                       sampleContext sampleInstance) = VBool true)
  /\ (let props := aliasProps (Some (VBool false)) None VUndefined VUndefined None None in
      Props.open props <> None
      /\ mergedValue props <> VUndefined
      /\ Rc.visible (render samplePresetColors sampleGetPlacements props
                       sampleContext sampleInstance) = VBool false).
Proof.
  split; [| split; [| split]].
  - split; [reflexivity | split; [reflexivity |]].
    destruct (forced_closed_when_uncontrolled samplePresetColors sampleGetPlacements
                noProps sampleContext sampleInstance) as [Hclosed _].
    apply Hclosed; first [reflexivity | discriminate].
  - assert (Props.open controlledOpenProps <> None) as Hkey by discriminate.
    assert (mergedValue controlledOpenProps <> VUndefined) as Hvalue by discriminate.
    split; [exact Hkey | split; [exact Hvalue |]].
    destruct (forced_closed_when_uncontrolled samplePresetColors sampleGetPlacements
                controlledOpenProps sampleContext (setOpen (VBool false) sampleInstance))
      as [_ Hcontrolled].
    exact (proj1 (Hcontrolled (or_introl Hkey)) Hvalue).
  - assert (Props.open undefinedOpenProps <> None) as Hkey by discriminate.
    split; [exact Hkey | split; [reflexivity |]].
    destruct (forced_closed_when_uncontrolled samplePresetColors sampleGetPlacements
                undefinedOpenProps sampleContext sampleInstance) as [_ Hcontrolled].
    exact (proj2 (Hcontrolled (or_introl Hkey)) eq_refl).
  - cbv zeta.
    assert (Props.open (aliasProps (Some (VBool false)) None VUndefined VUndefined None None)
            <> None) as Hkey by discriminate.
    assert (mergedValue (aliasProps (Some (VBool false)) None VUndefined VUndefined None None)
            <> VUndefined) as Hvalue by discriminate.
    split; [exact Hkey | split; [exact Hvalue |]].
    destruct (forced_closed_when_uncontrolled samplePresetColors sampleGetPlacements
                (aliasProps (Some (VBool false)) None VUndefined VUndefined None None)
                sampleContext sampleInstance) as [_ Hcontrolled].
    exact (proj1 (Hcontrolled (or_introl Hkey)) Hvalue).
Defined.

(** ** Content payload *)

Lemma getOverlay_rendered
  (PresetColorTypes : list string) (getPlacements : jsval -> jsval -> placements)
  (props : Props.t) (ctx : Context.t) (st : Instance.t) :
  Rc.overlay (render PresetColorTypes getPlacements props ctx st) = getOverlay props.
Proof. reflexivity. Qed.

(** C2, as stated, fails: with title "title" and overlay "overlay" both
    supplied, the payload rendered into the overlay is the overlay value,
    not the title. *)
Lemma title_precedence_counterexample :
  let props := contentProps (VStr "title") (VStr "overlay") None None in
  Rc.overlay (render samplePresetColors sampleGetPlacements props
                sampleContext (mount props)) = VStr "overlay"
  /\ Rc.overlay (render samplePresetColors sampleGetPlacements props
                   sampleContext (mount props)) <> Props.title props.
Proof. split; [reflexivity | discriminate]. Qed.

(** C2, amended: when both title and overlay are supplied (truthy) and title
    is not the literal 0, the payload rendered into the overlay is the
    overlay value: the legacy overlay prop takes precedence, and the title
    is rendered only when overlay is falsy. *)
Theorem overlay_precedence
  (PresetColorTypes : list string) (getPlacements : jsval -> jsval -> placements)
  (props : Props.t) (ctx : Context.t) (st : Instance.t) :
  Props.title props <> VNum 0 ->
  truthy (Props.title props) = true ->
  (truthy (Props.overlay props) = true ->
   Rc.overlay (render PresetColorTypes getPlacements props ctx st) = Props.overlay props)
  /\ (truthy (Props.overlay props) = false ->
      Rc.overlay (render PresetColorTypes getPlacements props ctx st) = Props.title props).
Proof.
  intros Hzero Htitle. rewrite getOverlay_rendered. unfold getOverlay, js_or.
  rewrite (is_zero_false _ Hzero).
  split; intros Hoverlay; rewrite !Hoverlay, ?Htitle; reflexivity.
Qed.

Lemma overlay_precedence_witness :
  let props := contentProps (VStr "title") (VStr "overlay") None None in
  Props.title props <> VNum 0
  /\ truthy (Props.title props) = true
  /\ truthy (Props.overlay props) = true
  /\ Rc.overlay (render samplePresetColors sampleGetPlacements props
                   sampleContext sampleInstance) = Props.overlay props.
Proof.
  cbv zeta.
  split; [discriminate | split; [reflexivity | split; [reflexivity |]]].
  apply (overlay_precedence samplePresetColors sampleGetPlacements
           (contentProps (VStr "title") (VStr "overlay") None None)
           sampleContext sampleInstance);
    first [reflexivity | discriminate].
Defined.

(** C3, amended: a title that is the literal 0 is content: [isNoTitle] is
    false, the open state handed to the popup primitive is the merged open
    state (not forced to false), a reported visibility change is stored as
    it is, and the overlay content is 0. *)
Theorem zero_title_is_content
  (PresetColorTypes : list string) (getPlacements : jsval -> jsval -> placements)
  (props : Props.t) (ctx : Context.t) (st : Instance.t) :
  Props.title props = VNum 0 ->
  isNoTitle props = false
  /\ Rc.visible (render PresetColorTypes getPlacements props ctx st) = open props st
  /\ (forall vis : bool,
        Instance.innerValue (onOpenChange props vis st) = VBool vis)
  /\ Rc.overlay (render PresetColorTypes getPlacements props ctx st) = VNum 0.
Proof.
  intros Htitle.
  assert (isNoTitle props = false) as Hno.
  { unfold isNoTitle. rewrite Htitle. cbn. apply andb_false_r. }
  split; [exact Hno |]. split; [| split].
  - cbn [render Rc.visible]. unfold tempOpen. rewrite Hno, andb_false_r. reflexivity.
  - intros vis. unfold onOpenChange. rewrite Hno. cbn.
    destruct (Props.onOpenChange props), (Props.onVisibleChange props); reflexivity.
  - rewrite getOverlay_rendered. unfold getOverlay. rewrite Htitle. reflexivity.
Qed.

Lemma zero_title_is_content_witness :
  let props := contentProps (VNum 0) VUndefined None None in
  Props.title props = VNum 0
  /\ Rc.visible (render samplePresetColors sampleGetPlacements props
                   sampleContext sampleInstance) = VBool true
  /\ Rc.overlay (render samplePresetColors sampleGetPlacements props
                   sampleContext sampleInstance) = VNum 0.
Proof.
  cbv zeta. split; [reflexivity |].
  destruct (zero_title_is_content samplePresetColors sampleGetPlacements
              (contentProps (VNum 0) VUndefined None None)
              sampleContext sampleInstance eq_refl) as (_ & Hvis & _ & Hov).
  split; [exact Hvis | exact Hov].
Defined.

(** C3, as stated, fails for a payload 0 given as the legacy overlay: with
    overlay 0 and no title the content counts as absent, the open state
    handed to the popup primitive is forced to false, a reported opening is
    stored as false, and the overlay content is the empty string, not 0. *)
Lemma zero_overlay_counterexample :
  let props := contentProps VUndefined (VNum 0) None None in
  isNoTitle props = true
  /\ Rc.visible (render samplePresetColors sampleGetPlacements props
                   sampleContext sampleInstance) = VBool false
  /\ Instance.innerValue (onOpenChange props true sampleInstance) = VBool false
  /\ Rc.overlay (render samplePresetColors sampleGetPlacements props
                   sampleContext sampleInstance) = VStr ""
  /\ Rc.overlay (render samplePresetColors sampleGetPlacements props
                   sampleContext sampleInstance) <> VNum 0.
Proof. repeat split. discriminate. Qed.

(** ** Visibility-change notification *)

Lemma invoke_calls (f : option fn) (vis : bool) (st : Instance.t) :
  Instance.calls (invoke f vis st) = (Instance.calls st ++ called f vis)%list.
Proof. destruct f; cbn; [reflexivity | symmetry; apply app_nil_r]. Qed.

Lemma invoke_innerValue (f : option fn) (vis : bool) (st : Instance.t) :
  Instance.innerValue (invoke f vis st) = Instance.innerValue st.
Proof. destruct f; reflexivity. Qed.

Lemma onOpenChange_present (props : Props.t) (vis : bool) (st : Instance.t) :
  isNoTitle props = false ->
  Instance.innerValue (onOpenChange props vis st) = VBool vis
  /\ Instance.calls (onOpenChange props vis st)
     = (Instance.calls st ++ called (Props.onOpenChange props) vis
          ++ called (Props.onVisibleChange props) vis)%list.
Proof.
  intros Hno. unfold onOpenChange. rewrite Hno. cbn [negb].
  rewrite invoke_innerValue, invoke_innerValue, invoke_calls, invoke_calls, <- app_assoc.
  split; reflexivity.
Qed.

Lemma onOpenChange_absent (props : Props.t) (vis : bool) (st : Instance.t) :
  isNoTitle props = true ->
  onOpenChange props vis st = setOpen (VBool false) st.
Proof. intros Hno. unfold onOpenChange. rewrite Hno. reflexivity. Qed.

(** C4: on a visibility change [vis] reported by the positioning primitive,
    with content absent the internal state becomes false and no callback is
    invoked (so none is invoked with true); with content present [vis] goes
    first to [onOpenChange] and then to [onVisibleChange]. *)
Theorem onOpenChange_notification (props : Props.t) (vis : bool) (st : Instance.t) :
  (isNoTitle props = true ->
   Instance.innerValue (onOpenChange props vis st) = VBool false
   /\ Instance.calls (onOpenChange props vis st) = Instance.calls st)
  /\ (isNoTitle props = false ->
      Instance.calls (onOpenChange props vis st)
      = (Instance.calls st ++ called (Props.onOpenChange props) vis
           ++ called (Props.onVisibleChange props) vis)%list)
  /\ (isNoTitle props = false ->
      forall f g : fn,
        Props.onOpenChange props = Some f ->
        Props.onVisibleChange props = Some g ->
        Instance.calls (onOpenChange props vis st)
        = (Instance.calls st ++ [(f, vis); (g, vis)])%list).
Proof.
  split; [| split].
  - intros Hno. rewrite (onOpenChange_absent _ _ _ Hno). split; reflexivity.
  - intros Hno. apply (onOpenChange_present props vis st Hno).
  - intros Hno f g Hf Hg.
    destruct (onOpenChange_present props vis st Hno) as [_ ->].
    rewrite Hf, Hg. reflexivity.
Qed.

Lemma onOpenChange_notification_witness :
  (let props := contentProps VUndefined VUndefined (Some 1%nat) (Some 2%nat) in
   isNoTitle props = true
   /\ Instance.innerValue (onOpenChange props true sampleInstance) = VBool false
   /\ Instance.calls (onOpenChange props true sampleInstance) = [])
  /\ (let props := contentProps (VStr "hi") VUndefined (Some 1%nat) (Some 2%nat) in
      isNoTitle props = false
      /\ Instance.calls (onOpenChange props true sampleInstance)
         = [(1%nat, true); (2%nat, true)]).
Proof.
  cbv zeta. split.
  - split; [reflexivity |].
    destruct (onOpenChange_notification
                (contentProps VUndefined VUndefined (Some 1%nat) (Some 2%nat))
                true sampleInstance) as (Habsent & _ & _).
    exact (Habsent eq_refl).
  - split; [reflexivity |].
    destruct (onOpenChange_notification
                (contentProps (VStr "hi") VUndefined (Some 1%nat) (Some 2%nat))
                true sampleInstance) as (_ & _ & Hboth).
    exact (Hboth eq_refl 1%nat 2%nat eq_refl eq_refl).
Defined.

(** Mounted closed with title "hi"; a hover-open report gives an open
    tooltip and exactly one call [onOpenChange(true)]. *)
Example hover_open :
  let props := contentProps (VStr "hi") VUndefined (Some 1%nat) None in
  let st := onOpenChange props true (mount props) in
  open props (mount props) = VBool false
  /\ open props st = VBool true
  /\ Instance.calls st = [(1%nat, true)].
Proof. repeat split. Qed.

(** ** Legacy and modern aliases *)

(** C5: when both members of a pair are supplied the modern one wins: the
    controlled value is [open] when it is not undefined and [visible]
    otherwise, the default is [defaultOpen] when it is not undefined and
    [defaultVisible] otherwise, these are the values the merged state uses,
    and on a visibility change with content present both callbacks are
    invoked. *)
Theorem modern_member_wins (props : Props.t) :
  (get (Props.open props) <> VUndefined ->
   mergedValue props = get (Props.open props)
   /\ forall st : Instance.t, open props st = get (Props.open props))
  /\ (get (Props.open props) = VUndefined ->
      mergedValue props = get (Props.visible props))
  /\ (Props.defaultOpen props <> VUndefined ->
      mergedDefaultValue props = Props.defaultOpen props
      /\ (mergedValue props = VUndefined ->
          Instance.innerValue (mount props) = Props.defaultOpen props))
  /\ (Props.defaultOpen props = VUndefined ->
      mergedDefaultValue props = Props.defaultVisible props)
  /\ (forall (f g : fn) (vis : bool) (st : Instance.t),
        isNoTitle props = false ->
        Props.onOpenChange props = Some f ->
        Props.onVisibleChange props = Some g ->
        Instance.calls (onOpenChange props vis st)
        = (Instance.calls st ++ [(f, vis); (g, vis)])%list).
Proof.
  split; [| split; [| split; [| split]]].
  - intros Hdef. unfold open, useMergedState_value, mergedValue.
    rewrite (is_defined_true _ Hdef), (is_defined_true _ Hdef). split; reflexivity.
  - intros Hundef. unfold mergedValue. rewrite Hundef. reflexivity.
  - intros Hdef. split.
    + unfold mergedDefaultValue. rewrite (is_defined_true _ Hdef). reflexivity.
    + intros Hvalue. unfold mount, useMergedState_init, mergedDefaultValue. cbn.
      rewrite Hvalue, (is_defined_true _ Hdef). cbn.
      rewrite (is_defined_true _ Hdef). reflexivity.
  - intros Hundef. unfold mergedDefaultValue. rewrite Hundef. reflexivity.
  - intros f g vis st Hno Hf Hg.
    destruct (onOpenChange_present props vis st Hno) as [_ ->].
    rewrite Hf, Hg. reflexivity.
Qed.

Lemma modern_member_wins_witness :
  let props := aliasProps (Some (VBool true)) (Some (VBool false))
                 (VBool true) (VBool false) (Some 1%nat) (Some 2%nat) in
  get (Props.open props) <> VUndefined
  /\ Props.defaultOpen props <> VUndefined
  /\ isNoTitle props = false
  /\ mergedValue props = VBool true
  /\ mergedDefaultValue props = VBool true
  /\ Instance.calls (onOpenChange props false sampleInstance)
     = [(1%nat, false); (2%nat, false)].
Proof.
  cbv zeta.
  destruct (modern_member_wins
              (aliasProps (Some (VBool true)) (Some (VBool false))
                 (VBool true) (VBool false) (Some 1%nat) (Some 2%nat)))
    as (Hvalue & _ & Hdefault & _ & Hcalls).
  split; [discriminate | split; [discriminate | split; [reflexivity |]]].
  assert (forall b : bool, VBool b <> VUndefined) as Hbool by (intros b; discriminate).
  split; [exact (proj1 (Hvalue (Hbool true))) |].
  split; [exact (proj1 (Hdefault (Hbool true))) |].
  exact (Hcalls 1%nat 2%nat false sampleInstance eq_refl eq_refl eq_refl).
Defined.

(** The first three pairs resolve alike whichever member carries the value. *)
Lemma visible_alias (p1 p2 : Props.t) (v : jsval) :
  Props.open p1 = None -> Props.visible p1 = Some v ->
  Props.open p2 = Some v -> Props.visible p2 = None ->
  Props.title p1 = Props.title p2 -> Props.overlay p1 = Props.overlay p2 ->
  mergedValue p1 = mergedValue p2
  /\ forall st : Instance.t, tempOpen p1 st = tempOpen p2 st.
Proof.
  intros Ho1 Hv1 Ho2 Hv2 Ht Hov.
  assert (mergedValue p1 = mergedValue p2) as Hm.
  { unfold mergedValue. rewrite Ho1, Hv1, Ho2, Hv2. cbn. destruct v; reflexivity. }
  split; [exact Hm |].
  intros st. unfold tempOpen, open, isNoTitle.
  rewrite Hm, Ho1, Hv1, Ho2, Hv2, Ht, Hov. reflexivity.
Qed.

Lemma defaultVisible_alias (p1 p2 : Props.t) (v : jsval) :
  Props.defaultOpen p1 = VUndefined -> Props.defaultVisible p1 = v ->
  Props.defaultOpen p2 = v -> Props.defaultVisible p2 = VUndefined ->
  mergedValue p1 = mergedValue p2 ->
  mergedDefaultValue p1 = mergedDefaultValue p2
  /\ Instance.innerValue (mount p1) = Instance.innerValue (mount p2).
Proof.
  intros Ho1 Hv1 Ho2 Hv2 Hm.
  assert (mergedDefaultValue p1 = mergedDefaultValue p2) as Hd.
  { unfold mergedDefaultValue. rewrite Ho1, Hv1, Ho2, Hv2. cbn. destruct v; reflexivity. }
  split; [exact Hd |]. cbn. rewrite Hm, Hd. reflexivity.
Qed.

Lemma onVisibleChange_alias (p1 p2 : Props.t) (f : fn) (vis : bool) (st : Instance.t) :
  Props.onOpenChange p1 = None -> Props.onVisibleChange p1 = Some f ->
  Props.onOpenChange p2 = Some f -> Props.onVisibleChange p2 = None ->
  Props.title p1 = Props.title p2 -> Props.overlay p1 = Props.overlay p2 ->
  onOpenChange p1 vis st = onOpenChange p2 vis st.
Proof.
  intros Ho1 Hv1 Ho2 Hv2 Ht Hov. unfold onOpenChange, isNoTitle.
  rewrite Ho1, Hv1, Ho2, Hv2, Ht, Hov. reflexivity.
Qed.

(** C6: the fourth pair does not resolve alike. A callback given as the
    legacy [afterVisibleChange] reaches the popup primitive under the key it
    reads; the same callback given as [afterOpenChange] stays under a key the
    primitive does not read, and its [afterVisibleChange] is absent. *)
Theorem afterOpenChange_not_forwarded :
  let legacy := afterChangeProps None (Some 7%nat) in
  let modern := afterChangeProps (Some 7%nat) None in
  Rc.afterVisibleChange
    (render samplePresetColors sampleGetPlacements legacy sampleContext (mount legacy))
  = Some 7%nat
  /\ Rc.afterVisibleChange
       (render samplePresetColors sampleGetPlacements modern sampleContext (mount modern))
     = None
  /\ Rc.afterOpenChange
       (render samplePresetColors sampleGetPlacements modern sampleContext (mount modern))
     = Some 7%nat.
Proof. repeat split. Qed.

(** ** Disabled children *)

Lemma splitObject_fold (obj : option (gmap string jsval)) (keys : list string)
  (a b : gmap string jsval) (k : string) :
  fst (fold_left (splitObject_step obj) keys (a, b)) !! k
  = (if decide (k ∈ keys)
     then match obj ≫= (fun o => lookup_in o k) with Some v => Some v | None => a !! k end
     else a !! k)
  /\ snd (fold_left (splitObject_step obj) keys (a, b)) !! k
     = (if decide (k ∈ keys)
        then match obj ≫= (fun o => lookup_in o k) with Some _ => None | None => b !! k end
        else b !! k).
Proof.
  revert a b. induction keys as [|key rest IH]; intros a b.
  - cbn. rewrite decide_False by apply not_elem_of_nil. split; reflexivity.
  - cbn [fold_left].
    assert (exists a' b',
               splitObject_step obj (a, b) key = (a', b')
               /\ a' !! k = (if decide (k = key)
                             then match obj ≫= (fun o => lookup_in o k) with
                                  | Some v => Some v | None => a !! k end
                             else a !! k)
               /\ b' !! k = (if decide (k = key)
                             then match obj ≫= (fun o => lookup_in o k) with
                                  | Some _ => None | None => b !! k end
                             else b !! k)) as (a' & b' & Hstep & Ha & Hb).
    { unfold splitObject_step. destruct obj as [o|]; cbn.
      - destruct (lookup_in o key) as [v|] eqn:Hkey.
        + eexists _, _. split; [reflexivity |]. cbn.
          destruct (decide (k = key)) as [->|Hne].
          * rewrite Hkey, lookup_insert_eq, lookup_delete_eq. split; reflexivity.
          * rewrite lookup_insert_ne, lookup_delete_ne by congruence. split; reflexivity.
        + eexists _, _. split; [reflexivity |].
          destruct (decide (k = key)) as [->|Hne]; [rewrite Hkey |]; split; reflexivity.
      - eexists _, _. split; [reflexivity |].
        destruct (decide (k = key)); split; reflexivity. }
    rewrite Hstep. destruct (IH a' b') as [IHa IHb]. rewrite IHa, IHb, Ha, Hb.
    destruct (decide (k = key)) as [Heq|Hne], (decide (k ∈ rest)) as [Hin|Hnin],
      (decide (k ∈ key :: rest)) as [Hin'|Hnin'];
      try (exfalso; apply Hnin', elem_of_cons; tauto);
      try (exfalso; apply elem_of_cons in Hin'; tauto);
      destruct (obj ≫= (fun o => lookup_in o k)); split; reflexivity.
Qed.

(** What [splitObject] returns, key by key. *)
Lemma splitObject_picked (obj : option (gmap string jsval)) (keys : list string) (k : string) :
  fst (splitObject obj keys) !! k
  = if decide (k ∈ keys) then obj ≫= (fun o => lookup_in o k) else None.
Proof.
  unfold splitObject. destruct (splitObject_fold obj keys ∅ (default ∅ obj) k) as [-> _].
  rewrite lookup_empty. destruct (decide (k ∈ keys)); [| reflexivity].
  destruct (obj ≫= (fun o => lookup_in o k)); reflexivity.
Qed.

Lemma lookup_in_own (obj : option (gmap string jsval)) (k : string) :
  obj ≫= (fun o => lookup_in o k) = None -> default ∅ obj !! k = None.
Proof.
  destruct obj as [o|]; cbn; [| intros _; apply lookup_empty].
  unfold lookup_in. destruct (o !! k); [discriminate | reflexivity].
Qed.

Lemma splitObject_omitted (obj : option (gmap string jsval)) (keys : list string) (k : string) :
  snd (splitObject obj keys) !! k
  = if decide (k ∈ keys) then None else default ∅ obj !! k.
Proof.
  unfold splitObject. destruct (splitObject_fold obj keys ∅ (default ∅ obj) k) as [_ ->].
  destruct (decide (k ∈ keys)); [| reflexivity].
  destruct (obj ≫= (fun o => lookup_in o k)) eqn:Hin; [reflexivity |].
  apply lookup_in_own. exact Hin.
Qed.

(** No layout key is a member of [Object.prototype]: for these keys
    [key in obj] is the own-property test. *)
Lemma layoutKey_own (obj : option (gmap string jsval)) (k : string) :
  k ∈ layoutKeys ->
  obj ≫= (fun o => lookup_in o k) = default ∅ obj !! k.
Proof.
  intros Hk.
  assert (inherited k = None) as Hinherited.
  { unfold layoutKeys in Hk.
    repeat (apply elem_of_cons in Hk as [->|Hk]; [reflexivity |]).
    apply elem_of_nil in Hk. contradiction. }
  destruct obj as [o|]; cbn; [| symmetry; apply lookup_empty].
  unfold lookup_in. rewrite Hinherited. destruct (o !! k); reflexivity.
Qed.

Lemma not_layoutKey (k : string) :
  k ∈ ["pointerEvents"; "cursor"; "width"] -> k ∉ layoutKeys.
Proof.
  intros Hk Hin. unfold layoutKeys in Hin.
  repeat (apply elem_of_cons in Hk as [->|Hk]);
    try (apply elem_of_nil in Hk; contradiction);
    repeat (apply elem_of_cons in Hin as [Hin|Hin]; [discriminate Hin |]);
    apply elem_of_nil in Hin; contradiction.
Qed.

Lemma layoutKey_ne (k k' : string) :
  k ∈ layoutKeys -> k' ∈ ["pointerEvents"; "cursor"; "width"] -> k' <> k.
Proof. intros Hk Hk' ->. exact (not_layoutKey k Hk' Hk). Qed.

Lemma spanStyle_layout (obj : option (gmap string jsval)) (block : jsval) (k : string) (v : jsval) :
  k ∈ layoutKeys ->
  default ∅ obj !! k = Some v ->
  spanStyle (fst (splitObject obj layoutKeys)) block !! k = Some v.
Proof.
  intros Hk Hv. unfold spanStyle.
  rewrite lookup_insert_ne
    by (apply layoutKey_ne; [exact Hk | apply elem_of_cons; right; apply elem_of_cons; right; apply elem_of_cons; left; reflexivity]).
  rewrite lookup_insert_ne
    by (apply layoutKey_ne; [exact Hk | apply elem_of_cons; right; apply elem_of_cons; left; reflexivity]).
  apply lookup_union_Some_l.
  rewrite splitObject_picked, decide_True, layoutKey_own by exact Hk. exact Hv.
Qed.

Lemma spanStyle_pointerEvents (obj : option (gmap string jsval)) (block : jsval) :
  spanStyle (fst (splitObject obj layoutKeys)) block !! "pointerEvents" = None.
Proof.
  unfold spanStyle.
  rewrite lookup_insert_ne, lookup_insert_ne by discriminate.
  apply lookup_union_None. split.
  - rewrite splitObject_picked, decide_False; [reflexivity |].
    apply not_layoutKey, elem_of_cons. left. reflexivity.
  - apply lookup_singleton_ne. discriminate.
Qed.

Lemma needsWrapper_cases (ty : elementType) (p : Elem.props) :
  needsWrapper ty p = true <->
  ((ANT_BUTTON ty = VBool true \/ ty = HostTag "button") /\ truthy (Elem.disabled p) = true)
  \/ (ANT_SWITCH ty = VBool true
      /\ (truthy (Elem.disabled p) = true \/ truthy (Elem.loading p) = true))
  \/ (ANT_RADIO ty = VBool true /\ truthy (Elem.disabled p) = true).
Proof.
  assert (forall v, is_true v = true <-> v = VBool true) as Htrue.
  { intros v. destruct v as [| |[|]| | | | | |]; cbn; split; congruence. }
  assert (is_tag ty "button" = true <-> ty = HostTag "button") as Htag.
  { destruct ty as [t| |]; cbn; [| split; congruence..].
    rewrite String.eqb_eq. split; congruence. }
  unfold needsWrapper.
  rewrite !orb_true_iff, !andb_true_iff, !orb_true_iff, !Htrue, Htag. tauto.
Qed.

(** C7: a disabled button (native or marked [__ANT_BUTTON]), a disabled or
    loading [__ANT_SWITCH] and a disabled [__ANT_RADIO] are wrapped in a span.
    The span's style has no [pointerEvents] entry, so it receives pointer
    events, and carries every layout key (position, left, right, top,
    bottom, float, display, zIndex) present in the child's style. The child
    inside keeps its type, children and flags, gets [pointerEvents] 'none'
    and keeps the style keys that are not layout keys. Any other element is
    returned as it is. *)
Theorem disabled_child_wrapped
  (ty : elementType) (p : Elem.props) (ch : node) (prefixCls : string) :
  (needsWrapper ty p = true <->
   ((ANT_BUTTON ty = VBool true \/ ty = HostTag "button") /\ truthy (Elem.disabled p) = true)
   \/ (ANT_SWITCH ty = VBool true
       /\ (truthy (Elem.disabled p) = true \/ truthy (Elem.loading p) = true))
   \/ (ANT_RADIO ty = VBool true /\ truthy (Elem.disabled p) = true))
  /\ (needsWrapper ty p = true ->
      exists (wrapper inner : Elem.props) (span inert : gmap string jsval),
        getDisabledCompatibleChildren (Element ty p ch) prefixCls
        = Element (HostTag "span") wrapper (Element ty inner ch)
        /\ Elem.style wrapper = Some span
        /\ span !! "pointerEvents" = None
        /\ (forall (k : string) (v : jsval),
              k ∈ layoutKeys -> default ∅ (Elem.style p) !! k = Some v ->
              span !! k = Some v)
        /\ Elem.style inner = Some inert
        /\ inert !! "pointerEvents" = Some (VStr "none")
        /\ (forall k : string, k ∈ layoutKeys -> inert !! k = None)
        /\ (forall k : string,
              k ∉ layoutKeys -> k <> "pointerEvents" ->
              inert !! k = default ∅ (Elem.style p) !! k)
        /\ Elem.disabled inner = Elem.disabled p
        /\ Elem.loading inner = Elem.loading p
        /\ Elem.block inner = Elem.block p)
  /\ (needsWrapper ty p = false ->
      getDisabledCompatibleChildren (Element ty p ch) prefixCls = Element ty p ch).
Proof.
  split; [apply needsWrapper_cases |]. split; intros Hneeds.
  - cbn [getDisabledCompatibleChildren]. rewrite Hneeds.
    destruct (splitObject (Elem.style p) layoutKeys) as [picked omitted] eqn:Hsplit.
    cbn [cloneElement_style_className].
    eexists _, _, _, _. split; [reflexivity |]. cbn [Elem.style Elem.disabled Elem.loading Elem.block].
    replace picked with (fst (splitObject (Elem.style p) layoutKeys)) by (rewrite Hsplit; reflexivity).
    replace omitted with (snd (splitObject (Elem.style p) layoutKeys)) by (rewrite Hsplit; reflexivity).
    repeat split.
    + apply spanStyle_pointerEvents.
    + intros k v Hk Hv. apply spanStyle_layout; assumption.
    + unfold buttonStyle. apply lookup_insert_eq.
    + intros k Hk. unfold buttonStyle.
      rewrite lookup_insert_ne
        by (apply layoutKey_ne; [exact Hk | apply elem_of_cons; left; reflexivity]).
      rewrite splitObject_omitted, decide_True by exact Hk. reflexivity.
    + intros k Hk Hne. unfold buttonStyle.
      rewrite lookup_insert_ne by congruence.
      rewrite splitObject_omitted, decide_False by exact Hk. reflexivity.
  - cbn [getDisabledCompatibleChildren]. rewrite Hneeds. reflexivity.
Qed.

Lemma disabled_child_wrapped_witness :
  needsWrapper (HostTag "button") disabledButton = true
  /\ exists (wrapper inner : Elem.props) (span inert : gmap string jsval),
       getDisabledCompatibleChildren
         (Element (HostTag "button") disabledButton (Value (VStr "ok"))) "ant-tooltip"
       = Element (HostTag "span") wrapper
           (Element (HostTag "button") inner (Value (VStr "ok")))
       /\ Elem.style wrapper = Some span
       /\ span !! "pointerEvents" = None
       /\ span !! "position" = Some (VStr "absolute")
       /\ Elem.style inner = Some inert
       /\ inert !! "pointerEvents" = Some (VStr "none")
       /\ inert !! "position" = None
       /\ inert !! "color" = Some (VStr "red").
Proof.
  split; [reflexivity |].
  destruct (disabled_child_wrapped (HostTag "button") disabledButton
              (Value (VStr "ok")) "ant-tooltip") as (_ & Hwrap & _).
  destruct (Hwrap eq_refl)
    as (wrapper & inner & span & inert & Hout & Hws & Hpe & Hlayout & His & Hnone & Hdrop & Hkeep & _).
  exists wrapper, inner, span, inert.
  split; [exact Hout |]. split; [exact Hws |]. split; [exact Hpe |].
  split; [apply Hlayout; [apply elem_of_cons; left; reflexivity | reflexivity] |].
  split; [exact His |]. split; [exact Hnone |].
  split; [apply Hdrop; apply elem_of_cons; left; reflexivity |].
  rewrite Hkeep; [reflexivity | | discriminate].
  apply (bool_decide_unpack _). exact I.
Defined.

(** ** Colour resolution *)

Lemma eqb_nonempty (c : string) : c <> "" -> String.eqb c "" = false.
Proof. intros Hc. apply String.eqb_neq. exact Hc. Qed.

Lemma PresetColorRegex_test_spec (PresetColorTypes : list string) (c : string) :
  PresetColorRegex_test PresetColorTypes c = true <->
  exists p : string,
    p ∈ presetAlternatives PresetColorTypes /\ (c = p \/ c = p ++ "-inverse").
Proof.
  unfold PresetColorRegex_test. rewrite existsb_exists. split.
  - intros (p & Hin & Hp). exists p. split; [apply list_elem_of_In; exact Hin |].
    apply orb_true_iff in Hp as [Hp|Hp]; apply String.eqb_eq in Hp; tauto.
  - intros (p & Hin & Hp). exists p. split; [apply list_elem_of_In; exact Hin |].
    apply orb_true_iff. rewrite !String.eqb_eq. exact Hp.
Qed.

Lemma overlayModifiers_preset (PresetColorTypes : list string)
  (prefixCls : string) (direction : option string) (c : string) :
  c <> "" ->
  PresetColorRegex_test PresetColorTypes c = true ->
  (prefixCls ++ "-" ++ c)
    ∈ classEntries (VObj (overlayModifiers PresetColorTypes prefixCls direction (Some c))).
Proof.
  intros Hc Htest. unfold overlayModifiers, colorIsPreset, colorText.
  rewrite (eqb_nonempty c Hc), Htest. cbn.
  destruct (String.eqb_spec (prefixCls ++ "-" ++ c) (prefixCls ++ "-rtl")) as [Heq|Hne]; cbn.
  - rewrite <- Heq. apply elem_of_cons. left. reflexivity.
  - destruct (bool_decide (direction = Some "rtl")); cbn;
      repeat (apply elem_of_cons; first [left; reflexivity | right]).
Qed.

Lemma overlayModifiers_custom (PresetColorTypes : list string)
  (prefixCls : string) (direction : option string) (c : string) :
  c <> "" ->
  PresetColorRegex_test PresetColorTypes c = false ->
  (prefixCls ++ "-" ++ c)
    ∉ classEntries (VObj (overlayModifiers PresetColorTypes prefixCls direction (Some c))).
Proof.
  intros Hc Htest. unfold overlayModifiers, colorIsPreset, colorText.
  rewrite (eqb_nonempty c Hc), Htest. cbn.
  destruct (String.eqb_spec (prefixCls ++ "-" ++ c) (prefixCls ++ "-rtl")) as [Heq|Hne]; cbn.
  - apply not_elem_of_nil.
  - destruct (bool_decide (direction = Some "rtl")); cbn.
    + intros [Hin|Hin]%elem_of_cons; [congruence | apply elem_of_nil in Hin; exact Hin].
    + apply not_elem_of_nil.
Qed.

Lemma customOverlayClassName_joined (PresetColorTypes : list string)
  (prefixCls : string) (overlayClassName : jsval) (direction color : option string) :
  customOverlayClassName PresetColorTypes prefixCls overlayClassName direction color
  = String.concat " "
      (overlayClassList PresetColorTypes prefixCls overlayClassName direction color).
Proof.
  unfold customOverlayClassName, classNames, overlayClassList.
  cbn [List.flat_map]. rewrite app_nil_r. reflexivity.
Qed.

(** C8, as stated, fails: the empty string is a colour value that matches no
    preset, yet nothing is injected for it: the overlay inner style stays as
    given (here absent) and the arrow content gets no custom property. *)
Lemma color_injection_counterexample :
  let props := colorProps (Some "") in
  PresetColorRegex_test samplePresetColors "" = false
  /\ Rc.overlayInnerStyle
       (render samplePresetColors sampleGetPlacements props sampleContext (mount props))
     = None
  /\ Rc.arrowContentStyle
       (render samplePresetColors sampleGetPlacements props sampleContext (mount props))
     = None.
Proof. repeat split. Qed.

(** C8, amended: for every non-empty colour value, if it is a preset name,
    optionally followed by [-inverse], the overlay class list gains
    [prefixCls-color], the overlay inner style is passed as given and the
    arrow content gets no style; if it is not, the component adds no such
    class, the overlay inner style gets the colour as [background] and the
    arrow content gets it as [--antd-arrow-background-color]. *)
Theorem color_resolution
  (PresetColorTypes : list string) (getPlacements : jsval -> jsval -> placements)
  (props : Props.t) (ctx : Context.t) (st : Instance.t) (c : string) :
  Props.color props = Some c ->
  c <> "" ->
  let out := render PresetColorTypes getPlacements props ctx st in
  let added :=
    classEntries (VObj (overlayModifiers PresetColorTypes (Rc.prefixCls out)
                          (Context.direction ctx) (Some c))) in
  Rc.overlayClassName out
  = String.concat " " (classEntries (Props.overlayClassName props) ++ added)%list
  /\ ((exists p : string,
         p ∈ presetAlternatives PresetColorTypes /\ (c = p \/ c = p ++ "-inverse")) ->
      (Rc.prefixCls out ++ "-" ++ c) ∈ added
      /\ Rc.overlayInnerStyle out = Props.overlayInnerStyle props
      /\ Rc.arrowContentStyle out = None)
  /\ (~ (exists p : string,
           p ∈ presetAlternatives PresetColorTypes /\ (c = p \/ c = p ++ "-inverse")) ->
      ((Rc.prefixCls out ++ "-" ++ c) ∉ added)
      /\ Rc.overlayInnerStyle out
         = Some (<["background" := VStr c]> (default ∅ (Props.overlayInnerStyle props)))
      /\ Rc.arrowContentStyle out
         = Some {["--antd-arrow-background-color" := VStr c]}).
Proof.
  intros Hcolor Hc out added. subst out added.
  cbn [render Rc.overlayClassName Rc.prefixCls Rc.overlayInnerStyle Rc.arrowContentStyle].
  rewrite Hcolor. split; [| split].
  - apply customOverlayClassName_joined.
  - intros Hpreset. apply PresetColorRegex_test_spec in Hpreset.
    split; [apply overlayModifiers_preset; assumption |].
    unfold formattedOverlayInnerStyle, arrowContentStyle, colorIsCustom.
    rewrite Hpreset, andb_false_r. split; reflexivity.
  - intros Hcustom.
    assert (PresetColorRegex_test PresetColorTypes c = false) as Htest.
    { apply not_true_is_false. intros Htest. apply Hcustom, PresetColorRegex_test_spec, Htest. }
    split; [apply overlayModifiers_custom; assumption |].
    unfold formattedOverlayInnerStyle, arrowContentStyle, colorIsCustom, colorText.
    rewrite Htest, (eqb_nonempty c Hc). split; reflexivity.
Qed.

Lemma color_resolution_witness :
  (let props := colorProps (Some "blue") in
   let out := render samplePresetColors sampleGetPlacements props sampleContext sampleInstance in
   Props.color props = Some "blue"
   /\ "blue" <> ""
   /\ Rc.overlayClassName out = "ant-tooltip-blue"
   /\ Rc.overlayInnerStyle out = None
   /\ Rc.arrowContentStyle out = None)
  /\ (let props := colorProps (Some "#123456") in
      let out := render samplePresetColors sampleGetPlacements props sampleContext sampleInstance in
      Props.color props = Some "#123456"
      /\ "#123456" <> ""
      /\ Rc.overlayClassName out = ""
      /\ Rc.overlayInnerStyle out = Some (<["background" := VStr "#123456"]> ∅)
      /\ Rc.arrowContentStyle out
         = Some {["--antd-arrow-background-color" := VStr "#123456"]}).
Proof.
  cbv zeta. split.
  - assert ("blue" <> "") as Hne by discriminate.
    destruct (color_resolution samplePresetColors sampleGetPlacements
                (colorProps (Some "blue")) sampleContext sampleInstance "blue" eq_refl Hne)
      as (Hcls & Hpreset & _).
    destruct Hpreset as (_ & Hinner & Harrow).
    { exists "blue". split; [| left; reflexivity].
      apply (bool_decide_unpack _). exact I. }
    split; [reflexivity |]. split; [exact Hne |].
    split; [rewrite Hcls; reflexivity |]. split; [exact Hinner | exact Harrow].
  - assert ("#123456" <> "") as Hne by discriminate.
    destruct (color_resolution samplePresetColors sampleGetPlacements
                (colorProps (Some "#123456")) sampleContext sampleInstance "#123456" eq_refl Hne)
      as (Hcls & _ & Hcustom).
    destruct Hcustom as (_ & Hinner & Harrow).
    { intros Hp. apply PresetColorRegex_test_spec in Hp. discriminate Hp. }
    split; [reflexivity |]. split; [exact Hne |].
    split; [rewrite Hcls; reflexivity |]. split; [exact Hinner | exact Harrow].
Defined.

(** ** Transform origin *)

Lemma findPlacement_Some (table : placements) (points : string * string) (name : string) :
  findPlacement table points = Some name ->
  (name, points) ∈ table.
Proof.
  unfold findPlacement. intros Hfind.
  destruct (List.find _ table) as [[name' [p0 p1]]|] eqn:Hf; [| discriminate].
  cbn in Hfind. injection Hfind as ->.
  apply find_some in Hf as [Hin Hpts]. cbn in Hpts.
  apply andb_true_iff in Hpts as [H0%String.eqb_eq H1%String.eqb_eq].
  apply list_elem_of_In. destruct points as [q0 q1]. cbn in H0, H1. subst. exact Hin.
Qed.








Example onPopupAlign_top :
  Dom.transformOrigin (onPopupAlign sampleGetPlacements noProps sampleDom sampleAlign)
  = "50% 44px".
Proof. reflexivity. Qed.

Example onPopupAlign_unmatched :
  onPopupAlign sampleGetPlacements noProps sampleDom
    {| Align.points := ("xx", "yy"); Align.offset := (0, 0) |}
  = sampleDom.
Proof. reflexivity. Qed.

(** ** Child normalisation *)

Lemma normalizeChildren_element (children : node) :
  isValidElement (normalizeChildren children) = true
  /\ isFragment (normalizeChildren children) = false.
Proof.
  unfold normalizeChildren.
  destruct children as [v|[tag| |b s r] p ch]; cbn; split; reflexivity.
Qed.

Lemma getDisabledCompatibleChildren_element (element : node) (prefixCls : string) :
  isValidElement element = true ->
  isFragment element = false ->
  isValidElement (getDisabledCompatibleChildren element prefixCls) = true
  /\ isFragment (getDisabledCompatibleChildren element prefixCls) = false.
Proof.
  destruct element as [v|ty p ch]; [discriminate |]. intros _ Hfrag.
  cbn [getDisabledCompatibleChildren].
  destruct (needsWrapper ty p).
  - destruct (splitObject (Elem.style p) layoutKeys). split; reflexivity.
  - split; [reflexivity | exact Hfrag].
Qed.

Lemma cloneElement_className_element (n : node) (cls : jsval) :
  isValidElement (cloneElement_className n cls) = isValidElement n
  /\ isFragment (cloneElement_className n cls) = isFragment n.
Proof. destruct n as [v|[tag| |b s r] p ch]; split; reflexivity. Qed.

(** C10: children that are not a valid element, or that are a fragment, are
    wrapped in a span first; so the element given to the disabled
    compatibility check, the child whose class name gets the open class, and
    the child handed to the popup primitive are each one element that is not
    a fragment. *)
Theorem children_normalized
  (PresetColorTypes : list string) (getPlacements : jsval -> jsval -> placements)
  (props : Props.t) (ctx : Context.t) (st : Instance.t) :
  let children := Props.children props in
  let prefixCls := Context.getPrefixCls ctx (Some "tooltip") (Props.prefixCls props) in
  let element := normalizeChildren children in
  let child := getDisabledCompatibleChildren element prefixCls in
  let out := render PresetColorTypes getPlacements props ctx st in
  (isValidElement children = false \/ isFragment children = true ->
   element = Element (HostTag "span") Elem.none children)
  /\ (isValidElement element = true /\ isFragment element = false)
  /\ (isValidElement child = true /\ isFragment child = false)
  /\ Rc.children out
     = (if truthy (tempOpen props st)
        then cloneElement_className child (childCls child (Props.openClassName props) prefixCls)
        else child)
  /\ (isValidElement (Rc.children out) = true /\ isFragment (Rc.children out) = false).
Proof.
  intros children prefixCls element child out.
  assert (isValidElement element = true /\ isFragment element = false) as Helement
    by apply normalizeChildren_element.
  assert (isValidElement child = true /\ isFragment child = false) as Hchild
    by (apply getDisabledCompatibleChildren_element; apply Helement).
  split; [| split; [exact Helement | split; [exact Hchild | split; [reflexivity |]]]].
  - subst element. unfold normalizeChildren.
    intros [Hinvalid|Hfragment].
    + rewrite Hinvalid. reflexivity.
    + rewrite Hfragment, andb_false_r. reflexivity.
  - subst out. cbn [render Rc.children]. fold children prefixCls element child.
    destruct (truthy (tempOpen props st)); [| exact Hchild].
    destruct (cloneElement_className_element child
                (childCls child (Props.openClassName props) prefixCls)) as [-> ->].
    exact Hchild.
Qed.

Lemma children_normalized_witness :
  isValidElement (Props.children noProps) = false
  /\ normalizeChildren (Props.children noProps)
     = Element (HostTag "span") Elem.none (Value VUndefined).
Proof.
  split; [reflexivity |].
  destruct (children_normalized samplePresetColors sampleGetPlacements
              noProps sampleContext sampleInstance) as [Hwrap _].
  exact (Hwrap (or_introl eq_refl)).
Defined.

Example fragment_wrapped :
  normalizeChildren (Element Fragment Elem.none (Value (VStr "text")))
  = Element (HostTag "span") Elem.none (Element Fragment Elem.none (Value (VStr "text"))).
Proof. reflexivity. Qed.

(** * Further properties *)

(** ** splitObject *)





(** ** The wrapper of a disabled child *)

Lemma append_nonempty_r (a b : string) : b <> "" -> a ++ b <> "".
Proof.
  intros Hb. destruct a as [|ch a]; cbn; [exact Hb | discriminate].
Qed.

Lemma wrapperClass_nonempty (prefixCls : string) :
  String.eqb (wrapperClass prefixCls) "" = false.
Proof. apply String.eqb_neq, append_nonempty_r. discriminate. Qed.

Lemma wrapped_shape (ty : elementType) (p : Elem.props) (ch : node) (prefixCls : string) :
  needsWrapper ty p = true ->
  getDisabledCompatibleChildren (Element ty p ch) prefixCls
  = Element (HostTag "span")
      {| Elem.disabled := VUndefined; Elem.loading := VUndefined;
         Elem.block := VUndefined;
         Elem.style :=
           Some (spanStyle (fst (splitObject (Elem.style p) layoutKeys)) (Elem.block p));
         Elem.className :=
           VStr (classNames [Elem.className p; VStr (wrapperClass prefixCls)]) |}
      (Element ty
         {| Elem.disabled := Elem.disabled p; Elem.loading := Elem.loading p;
            Elem.block := Elem.block p;
            Elem.style :=
              Some (buttonStyle (snd (splitObject (Elem.style p) layoutKeys)));
            Elem.className := VNull |}
         ch).
Proof.
  intros Hneeds. cbn [getDisabledCompatibleChildren]. rewrite Hneeds.
  destruct (splitObject (Elem.style p) layoutKeys) as [picked omitted]. reflexivity.
Qed.

(** X3: the wrapper span of a disabled child always has cursor
    'not-allowed'; its width is '100%' for a block child and null otherwise;
    its display is the child's own display when the child's style has one and
    'inline-block' otherwise; and it carries no other key than these and the
    layout keys: no other style property of the child moves up. *)
Theorem wrapper_style (ty : elementType) (p : Elem.props) (ch : node) (prefixCls : string) :
  needsWrapper ty p = true ->
  exists (wrapper : Elem.props) (inner : node) (span : gmap string jsval),
    getDisabledCompatibleChildren (Element ty p ch) prefixCls
    = Element (HostTag "span") wrapper inner
    /\ Elem.style wrapper = Some span
    /\ span !! "cursor" = Some (VStr "not-allowed")
    /\ span !! "width" = Some (if truthy (Elem.block p) then VStr "100%" else VNull)
    /\ span !! "display"
       = Some (default (VStr "inline-block") (default ∅ (Elem.style p) !! "display"))
    /\ (forall k : string,
          k ∉ layoutKeys -> k <> "cursor" -> k <> "width" -> span !! k = None).
Proof.
  intros Hneeds. rewrite (wrapped_shape ty p ch prefixCls Hneeds).
  eexists _, _, _. split; [reflexivity |]. split; [reflexivity |].
  unfold spanStyle. split; [| split; [| split]].
  - rewrite lookup_insert_ne by discriminate. apply lookup_insert_eq.
  - apply lookup_insert_eq.
  - rewrite lookup_insert_ne, lookup_insert_ne by discriminate.
    rewrite lookup_union, splitObject_picked.
    rewrite decide_True, layoutKey_own by (apply (bool_decide_unpack _); exact I).
    rewrite lookup_singleton_eq.
    destruct (default ∅ (Elem.style p) !! "display"); reflexivity.
  - intros k Hlayout Hcursor Hwidth.
    rewrite lookup_insert_ne, lookup_insert_ne by congruence.
    rewrite lookup_union, splitObject_picked, decide_False by exact Hlayout.
    rewrite lookup_singleton_ne; [reflexivity |].
    intros <-. apply Hlayout. apply (bool_decide_unpack _). exact I.
Qed.

Lemma wrapper_style_witness :
  needsWrapper (HostTag "button") disabledButton = true
  /\ exists (wrapper : Elem.props) (inner : node) (span : gmap string jsval),
       getDisabledCompatibleChildren
         (Element (HostTag "button") disabledButton (Value (VStr "ok"))) "ant-tooltip"
       = Element (HostTag "span") wrapper inner
       /\ Elem.style wrapper = Some span
       /\ span !! "cursor" = Some (VStr "not-allowed")
       /\ span !! "width" = Some VNull
       /\ span !! "display" = Some (VStr "inline-block")
       /\ span !! "color" = None.
Proof.
  split; [reflexivity |].
  destruct (wrapper_style (HostTag "button") disabledButton (Value (VStr "ok"))
              "ant-tooltip" eq_refl)
    as (wrapper & inner & span & Hout & Hstyle & Hcursor & Hwidth & Hdisplay & Hrest).
  exists wrapper, inner, span.
  split; [exact Hout |]. split; [exact Hstyle |]. split; [exact Hcursor |].
  split; [exact Hwidth |]. split; [exact Hdisplay |].
  apply Hrest; [apply (bool_decide_unpack _); exact I | discriminate | discriminate].
Defined.

(** X4: the class names of a disabled child move up: the wrapper span gets
    the child's class entries followed by
    [prefixCls-disabled-compatible-wrapper], and the child inside gets the
    class name null. *)
Theorem wrapper_className (ty : elementType) (p : Elem.props) (ch : node) (prefixCls : string) :
  needsWrapper ty p = true ->
  exists (wrapper inner : Elem.props),
    getDisabledCompatibleChildren (Element ty p ch) prefixCls
    = Element (HostTag "span") wrapper (Element ty inner ch)
    /\ Elem.className wrapper
       = VStr (String.concat " "
                 (classEntries (Elem.className p) ++ [wrapperClass prefixCls])%list)
    /\ Elem.className inner = VNull
    /\ (forall s : string,
          Elem.className p = VStr s -> s <> "" ->
          Elem.className wrapper = VStr (s ++ " " ++ wrapperClass prefixCls))
    /\ (truthy (Elem.className p) = false ->
        Elem.className wrapper = VStr (wrapperClass prefixCls)).
Proof.
  intros Hneeds. rewrite (wrapped_shape ty p ch prefixCls Hneeds).
  eexists _, _. split; [reflexivity |]. cbn [Elem.className].
  assert (classNames [Elem.className p; VStr (wrapperClass prefixCls)]
          = String.concat " "
              (classEntries (Elem.className p) ++ [wrapperClass prefixCls])%list) as Hcls.
  { unfold classNames. cbn [List.flat_map classEntries].
    rewrite wrapperClass_nonempty, app_nil_r. reflexivity. }
  rewrite Hcls. split; [reflexivity |]. split; [reflexivity |]. split.
  - intros s -> Hs. cbn [classEntries].
    rewrite (proj2 (String.eqb_neq s "") Hs). reflexivity.
  - intros Hfalsy. destruct (Elem.className p) as [| |b|z| |s| | |]; try discriminate Hfalsy;
      try reflexivity.
    + cbn in Hfalsy. cbn [classEntries].
      destruct (z =? 0); [reflexivity | discriminate Hfalsy].
    + cbn in Hfalsy. cbn [classEntries].
      destruct (String.eqb s ""); [reflexivity | discriminate Hfalsy].
Qed.

Lemma wrapper_className_witness :
  needsWrapper (HostTag "button") disabledButton = true
  /\ exists (wrapper inner : Elem.props),
       getDisabledCompatibleChildren
         (Element (HostTag "button") disabledButton (Value (VStr "ok"))) "ant-tooltip"
       = Element (HostTag "span") wrapper
           (Element (HostTag "button") inner (Value (VStr "ok")))
       /\ Elem.className wrapper = VStr "btn ant-tooltip-disabled-compatible-wrapper"
       /\ Elem.className inner = VNull.
Proof.
  split; [reflexivity |].
  destruct (wrapper_className (HostTag "button") disabledButton (Value (VStr "ok"))
              "ant-tooltip" eq_refl)
    as (wrapper & inner & Hout & Hcls & Hinner & _).
  exists wrapper, inner.
  split; [exact Hout |]. split; [exact Hcls | exact Hinner].
Defined.

(** X5: preparing the child twice is the same as preparing it once: a
    normalised child is already a non-fragment element, and the wrapper span
    of a disabled child is not wrapped again. *)
Theorem child_preparation_idempotent (children : node) (prefixCls prefixCls' : string) :
  normalizeChildren (normalizeChildren children) = normalizeChildren children
  /\ getDisabledCompatibleChildren
       (getDisabledCompatibleChildren children prefixCls) prefixCls'
     = getDisabledCompatibleChildren children prefixCls.
Proof.
  split.
  - destruct (normalizeChildren_element children) as [Hvalid Hfragment].
    unfold normalizeChildren at 1. rewrite Hvalid, Hfragment. reflexivity.
  - destruct children as [v|ty p ch]; [reflexivity |].
    destruct (needsWrapper ty p) eqn:Hneeds.
    + rewrite (wrapped_shape ty p ch prefixCls Hneeds). reflexivity.
    + cbn [getDisabledCompatibleChildren]. rewrite Hneeds.
      cbn [getDisabledCompatibleChildren]. rewrite Hneeds. reflexivity.
Qed.

(** ** Content and open state over time *)

(** X6: the overlay content is never undefined, null, false or NaN: it is a
    truthy value, the number 0 or the empty string; and it is the empty
    string exactly when [isNoTitle] holds. *)
Theorem overlay_content_total (props : Props.t) :
  (truthy (getOverlay props) = true
   \/ getOverlay props = VNum 0
   \/ getOverlay props = VStr "")
  /\ (isNoTitle props = true <-> getOverlay props = VStr "").
Proof.
  unfold isNoTitle, getOverlay, js_or.
  destruct (is_zero (Props.title props)) eqn:Hzero.
  - assert (Props.title props = VNum 0) as Htitle.
    { destruct (Props.title props) as [| | |z| | | | |]; try discriminate Hzero.
      cbn in Hzero. apply Z.eqb_eq in Hzero. congruence. }
    rewrite Htitle, andb_false_r.
    split; [right; left; reflexivity |].
    split; intros Habs; discriminate Habs.
  - destruct (truthy (Props.overlay props)) eqn:Hoverlay.
    + rewrite Hoverlay, andb_false_r. split; [left; exact Hoverlay |].
      split; [intros Habs; discriminate Habs |].
      intros Heq. rewrite Heq in Hoverlay. discriminate Hoverlay.
    + destruct (truthy (Props.title props)) eqn:Htitle.
      * split; [left; exact Htitle |].
        split; [intros Habs; discriminate Habs |].
        intros Heq. rewrite Heq in Htitle. discriminate Htitle.
      * split; [right; right; reflexivity |].
        split; reflexivity.
Qed.

Lemma relay_snoc (props : Props.t) (events : list bool) (vis : bool) (st : Instance.t) :
  relay props (events ++ [vis]) st = onOpenChange props vis (relay props events st).
Proof. unfold relay. rewrite fold_left_app. reflexivity. Qed.

Lemma mergedValue_has_key (props : Props.t) :
  mergedValue props <> VUndefined ->
  has_key (Props.open props) || has_key (Props.visible props) = true.
Proof.
  unfold mergedValue.
  destruct (Props.open props) as [o|], (Props.visible props) as [v|]; cbn;
    try reflexivity.
  congruence.
Qed.

(** X7: a controlled tooltip stays with its controlled value: when [open]
    (or, failing that, [visible]) is not undefined, the open state handed to
    the popup primitive is that value after any series of reported
    visibility changes, from any state. *)
Theorem controlled_open_state
  (PresetColorTypes : list string) (getPlacements : jsval -> jsval -> placements)
  (props : Props.t) (ctx : Context.t) (events : list bool) (st : Instance.t) :
  mergedValue props <> VUndefined ->
  Rc.visible (render PresetColorTypes getPlacements props ctx (relay props events st))
  = mergedValue props.
Proof.
  intros Hcontrolled. cbn [render Rc.visible]. unfold tempOpen.
  pose proof (mergedValue_has_key props Hcontrolled) as Hkey.
  apply orb_true_iff in Hkey.
  assert (negb (has_key (Props.open props)) && negb (has_key (Props.visible props)) = false)
    as ->.
  { destruct Hkey as [-> | ->]; cbn; [reflexivity | apply andb_false_r]. }
  cbn. unfold open, useMergedState_value.
  rewrite (is_defined_true _ Hcontrolled). reflexivity.
Qed.

Lemma controlled_open_state_witness :
  mergedValue controlledOpenProps <> VUndefined
  /\ Rc.visible (render samplePresetColors sampleGetPlacements controlledOpenProps
                   sampleContext (relay controlledOpenProps [false; true; false] sampleInstance))
     = VBool true.
Proof.
  assert (mergedValue controlledOpenProps <> VUndefined) as Hc by discriminate.
  split; [exact Hc |].
  apply (controlled_open_state samplePresetColors sampleGetPlacements controlledOpenProps
           sampleContext [false; true; false] sampleInstance Hc).
Defined.

(** X8: an uncontrolled tooltip with content follows the popup primitive:
    when neither [open] nor [visible] gives a value and content is present,
    the open state handed to the primitive after a series of reported
    changes is the last reported one. *)
Theorem uncontrolled_follows_last_event
  (PresetColorTypes : list string) (getPlacements : jsval -> jsval -> placements)
  (props : Props.t) (ctx : Context.t) (events : list bool) (vis : bool) (st : Instance.t) :
  mergedValue props = VUndefined ->
  isNoTitle props = false ->
  Rc.visible (render PresetColorTypes getPlacements props ctx
                (relay props (events ++ [vis]) st))
  = VBool vis.
Proof.
  intros Huncontrolled Hcontent. cbn [render Rc.visible]. unfold tempOpen.
  rewrite Hcontent, andb_false_r. unfold open, useMergedState_value.
  rewrite Huncontrolled, relay_snoc. cbn [is_defined].
  apply (onOpenChange_present props vis _ Hcontent).
Qed.

Lemma uncontrolled_follows_last_event_witness :
  let props := contentProps (VStr "hi") VUndefined (Some 1%nat) None in
  mergedValue props = VUndefined
  /\ isNoTitle props = false
  /\ Rc.visible (render samplePresetColors sampleGetPlacements props sampleContext
                   (relay props ([true; false] ++ [true]) (mount props)))
     = VBool true.
Proof.
  cbv zeta. split; [reflexivity |]. split; [reflexivity |].
  apply (uncontrolled_follows_last_event samplePresetColors sampleGetPlacements
           (contentProps (VStr "hi") VUndefined (Some 1%nat) None) sampleContext
           [true; false] true
           (mount (contentProps (VStr "hi") VUndefined (Some 1%nat) None))
           eq_refl eq_refl).
Defined.

(** X9: over any series of reported visibility changes the call log only
    grows at its end: with content present each report adds one call to each
    supplied callback, [onOpenChange] before [onVisibleChange], in report
    order; with content absent the log does not change at all. *)
Theorem relay_call_log (props : Props.t) (events : list bool) (st : Instance.t) :
  Instance.calls (relay props events st)
  = (Instance.calls st
     ++ (if isNoTitle props then []
         else List.flat_map
                (fun vis => called (Props.onOpenChange props) vis
                            ++ called (Props.onVisibleChange props) vis)
                events))%list.
Proof.
  revert st. induction events as [|vis events IH]; intros st.
  - cbn. destruct (isNoTitle props); symmetry; apply app_nil_r.
  - change (relay props (vis :: events) st)
      with (relay props events (onOpenChange props vis st)).
    rewrite IH. destruct (isNoTitle props) eqn:Hno.
    + rewrite (onOpenChange_absent props vis st Hno). reflexivity.
    + destruct (onOpenChange_present props vis st Hno) as [_ ->].
      cbn [List.flat_map]. rewrite <- !app_assoc. reflexivity.
Qed.

Lemma firstDefined_head (v : jsval) (rest : list jsval) (fallback : jsval) :
  firstDefined (v :: rest) fallback
  = if is_defined v then v else firstDefined rest fallback.
Proof. reflexivity. Qed.

(** X10: a freshly mounted tooltip shows the first value that is not
    undefined among [open], [visible], [defaultOpen] and [defaultVisible], in
    that order, and false when all four are undefined. *)
Theorem initial_open_state (props : Props.t) :
  open props (mount props)
  = firstDefined [get (Props.open props); get (Props.visible props);
                  Props.defaultOpen props; Props.defaultVisible props]
      (VBool false).
Proof.
  rewrite !firstDefined_head.
  unfold open, mount, useMergedState_value, useMergedState_init, mergedValue,
    mergedDefaultValue.
  cbn [Instance.innerValue firstDefined].
  destruct (is_defined (get (Props.open props))) eqn:Hopen.
  - rewrite Hopen. reflexivity.
  - destruct (is_defined (get (Props.visible props))) eqn:Hvisible.
    + reflexivity.
    + destruct (is_defined (Props.defaultOpen props)) eqn:Hdo.
      * rewrite Hdo. reflexivity.
      * destruct (is_defined (Props.defaultVisible props)) eqn:Hdv; reflexivity.
Qed.

(** ** The open class *)

Lemma classEntries_falsy (v : jsval) : truthy v = false -> classEntries v = [].
Proof.
  destruct v as [| |b|z| |s| | |]; cbn; intros Hv; try reflexivity; try discriminate Hv.
  - destruct (z =? 0); [reflexivity | discriminate Hv].
  - destruct (String.eqb s ""); [reflexivity | discriminate Hv].
Qed.

Lemma nodeClassName_clone (n : node) (cls : jsval) :
  isValidElement n = true -> nodeClassName (cloneElement_className n cls) = cls.
Proof. destruct n as [v|ty p ch]; [discriminate | reflexivity]. Qed.

Lemma childCls_string (child : node) (openClassName : option string) (prefixCls s : string) :
  nodeClassName child = VStr s -> s <> "" ->
  childCls child openClassName prefixCls
  = VStr (s ++ " " ++ openClass openClassName prefixCls).
Proof.
  intros Hcls Hs. unfold childCls. rewrite Hcls, orb_true_r.
  unfold classNames. cbn. rewrite (proj2 (String.eqb_neq s "") Hs). reflexivity.
Qed.

Lemma childCls_falsy (child : node) (openClassName : option string) (prefixCls : string) :
  truthy (nodeClassName child) = false ->
  childCls child openClassName prefixCls = VStr (openClass openClassName prefixCls).
Proof.
  intros Hcls. unfold childCls. rewrite Hcls. cbn [negb orb].
  unfold classNames. cbn [List.flat_map]. rewrite (classEntries_falsy _ Hcls). reflexivity.
Qed.

(** X11: the open class goes on the child only while the tooltip is open.
    When the open state handed to the primitive is falsy the prepared child
    is passed as it is. When it is truthy, a child whose class name is a
    non-empty string gets the open class appended after a space, a child with
    a falsy class name gets the open class alone, and a child whose class
    name is truthy but not a string keeps it. *)
Theorem open_class_on_child
  (PresetColorTypes : list string) (getPlacements : jsval -> jsval -> placements)
  (props : Props.t) (ctx : Context.t) (st : Instance.t) :
  let prefixCls := Context.getPrefixCls ctx (Some "tooltip") (Props.prefixCls props) in
  let child :=
    getDisabledCompatibleChildren (normalizeChildren (Props.children props)) prefixCls in
  let cls := openClass (Props.openClassName props) prefixCls in
  let out := render PresetColorTypes getPlacements props ctx st in
  (truthy (Rc.visible out) = false -> Rc.children out = child)
  /\ (truthy (Rc.visible out) = true ->
      (forall s : string,
         nodeClassName child = VStr s -> s <> "" ->
         nodeClassName (Rc.children out) = VStr (s ++ " " ++ cls))
      /\ (truthy (nodeClassName child) = false ->
          nodeClassName (Rc.children out) = VStr cls)
      /\ (truthy (nodeClassName child) = true ->
          (forall s : string, nodeClassName child <> VStr s) ->
          nodeClassName (Rc.children out) = nodeClassName child)).
Proof.
  intros prefixCls child cls out.
  assert (isValidElement child = true) as Hvalid.
  { apply getDisabledCompatibleChildren_element; apply normalizeChildren_element. }
  subst out. cbn [render Rc.visible Rc.children]. fold prefixCls child.
  split; intros Hopen; rewrite Hopen; [reflexivity |].
  rewrite (nodeClassName_clone child _ Hvalid). split; [| split].
  - intros s Hs Hne. apply childCls_string; assumption.
  - intros Hfalsy. apply childCls_falsy. exact Hfalsy.
  - intros Htruthy Hnot. unfold childCls. rewrite Htruthy. cbn [negb orb].
    destruct (nodeClassName child) as [| | | | |s| | |]; try reflexivity.
    exfalso. exact (Hnot s eq_refl).
Qed.

Lemma open_class_on_child_witness :
  let props :=
    openProps (Element (HostTag "a") disabledButton (Value (VStr "link"))) None in
  let out := render samplePresetColors sampleGetPlacements props sampleContext sampleInstance in
  truthy (Rc.visible out) = true
  /\ nodeClassName (Rc.children out) = VStr "btn ant-tooltip-open".
Proof.
  cbv zeta. split; [reflexivity |].
  destruct (open_class_on_child samplePresetColors sampleGetPlacements
              (openProps (Element (HostTag "a") disabledButton (Value (VStr "link"))) None)
              sampleContext sampleInstance) as [_ Hopen].
  destruct (Hopen eq_refl) as (Hstring & _).
  apply (Hstring "btn" eq_refl). discriminate.
Defined.

Lemma concat_snoc_nonempty (sep x : string) (l : list string) :
  x <> "" -> String.concat sep (l ++ [x]) <> "".
Proof.
  intros Hx. induction l as [|a l IH]; [exact Hx |].
  cbn [app String.concat].
  destruct (l ++ [x])%list as [|b rest] eqn:Hrest.
  - destruct l; discriminate Hrest.
  - apply append_nonempty_r, append_nonempty_r. exact IH.
Qed.

(** X12: for a disabled child the open class goes on the wrapper span, not
    on the child inside: when the tooltip is open the span's class name is
    the child's class entries, the wrapper class and then the open class, and
    the child inside still has the class name null. *)
Theorem open_class_on_wrapper
  (PresetColorTypes : list string) (getPlacements : jsval -> jsval -> placements)
  (props : Props.t) (ctx : Context.t) (st : Instance.t)
  (ty : elementType) (p : Elem.props) (ch : node) :
  let prefixCls := Context.getPrefixCls ctx (Some "tooltip") (Props.prefixCls props) in
  let out := render PresetColorTypes getPlacements props ctx st in
  Props.children props = Element ty p ch ->
  ty <> Fragment ->
  needsWrapper ty p = true ->
  truthy (Rc.visible out) = true ->
  exists (wrapper inner : Elem.props),
    Rc.children out = Element (HostTag "span") wrapper (Element ty inner ch)
    /\ Elem.className wrapper
       = VStr (String.concat " "
                 (classEntries (Elem.className p) ++ [wrapperClass prefixCls])%list
               ++ " " ++ openClass (Props.openClassName props) prefixCls)
    /\ Elem.className inner = VNull.
Proof.
  intros prefixCls out Hchildren Hty Hneeds Hopen.
  subst out. cbn [render Rc.visible Rc.children] in Hopen |- *. fold prefixCls.
  rewrite Hopen, Hchildren.
  assert (normalizeChildren (Element ty p ch) = Element ty p ch) as ->.
  { unfold normalizeChildren. destruct ty; [reflexivity | congruence | reflexivity]. }
  rewrite (wrapped_shape ty p ch prefixCls Hneeds).
  eexists _, _. split; [reflexivity |]. split; [| reflexivity].
  cbn [Elem.className].
  assert (classNames [Elem.className p; VStr (wrapperClass prefixCls)]
          = String.concat " "
              (classEntries (Elem.className p) ++ [wrapperClass prefixCls])%list) as ->.
  { unfold classNames. cbn [List.flat_map classEntries].
    rewrite wrapperClass_nonempty, app_nil_r. reflexivity. }
  apply childCls_string; [reflexivity |].
  apply concat_snoc_nonempty. apply append_nonempty_r. discriminate.
Qed.

Lemma open_class_on_wrapper_witness :
  let props :=
    openProps (Element (HostTag "button") disabledButton (Value (VStr "ok"))) None in
  let out := render samplePresetColors sampleGetPlacements props sampleContext sampleInstance in
  HostTag "button" <> Fragment
  /\ needsWrapper (HostTag "button") disabledButton = true
  /\ truthy (Rc.visible out) = true
  /\ exists (wrapper inner : Elem.props),
       Rc.children out
       = Element (HostTag "span") wrapper
           (Element (HostTag "button") inner (Value (VStr "ok")))
       /\ Elem.className wrapper
          = VStr "btn ant-tooltip-disabled-compatible-wrapper ant-tooltip-open"
       /\ Elem.className inner = VNull.
Proof.
  cbv zeta.
  assert (HostTag "button" <> Fragment) as Hty by discriminate.
  split; [exact Hty |]. split; [reflexivity |]. split; [reflexivity |].
  apply (open_class_on_wrapper samplePresetColors sampleGetPlacements
           (openProps (Element (HostTag "button") disabledButton (Value (VStr "ok"))) None)
           sampleContext sampleInstance (HostTag "button") disabledButton (Value (VStr "ok"))
           eq_refl Hty eq_refl eq_refl).
Defined.

(** ** Overlay modifiers *)

Lemma append_inj_l (a b c : string) : a ++ b = a ++ c -> b = c.
Proof.
  induction a as [|ch a IH]; cbn; intros Heq; [exact Heq |].
  injection Heq as Heq. exact (IH Heq).
Qed.

Lemma modifier_key_eqb (prefixCls text : string) :
  String.eqb (prefixCls ++ "-" ++ text) (prefixCls ++ "-rtl") = String.eqb text "rtl".
Proof.
  destruct (String.eqb_spec text "rtl") as [->|Hne].
  - apply String.eqb_refl.
  - apply String.eqb_neq. intros Heq. apply Hne.
    apply append_inj_l in Heq. injection Heq as Heq. exact Heq.
Qed.

(** X13: the overlay gets the class [prefixCls-rtl] exactly when the
    direction is 'rtl' and the colour text is not "rtl", or when the colour
    text is "rtl" and the colour is a preset: a colour "rtl" writes the same
    object key as the direction and takes its place. *)
Theorem rtl_modifier (PresetColorTypes : list string)
  (prefixCls : string) (direction color : option string) :
  (prefixCls ++ "-rtl")
    ∈ classEntries (VObj (overlayModifiers PresetColorTypes prefixCls direction color))
  <-> (colorText color <> "rtl" /\ direction = Some "rtl")
      \/ (colorText color = "rtl" /\ truthy (colorIsPreset PresetColorTypes color) = true).
Proof.
  unfold overlayModifiers. cbn [obj_set].
  rewrite modifier_key_eqb.
  destruct (String.eqb_spec (colorText color) "rtl") as [Heq|Hne].
  - cbn. destruct (truthy (colorIsPreset PresetColorTypes color)); cbn.
    + split; [intros _; right; split; [exact Heq | reflexivity] |].
      intros _. apply elem_of_cons. left. reflexivity.
    + split; [intros Hin; apply elem_of_nil in Hin; contradiction |].
      intros [[Hne _]|[_ Habs]]; [contradiction | discriminate Habs].
  - assert (prefixCls ++ "-" ++ colorText color <> prefixCls ++ "-rtl") as Hkey.
    { intros Hk. apply Hne. apply append_inj_l in Hk. injection Hk as Hk. exact Hk. }
    cbn. destruct (bool_decide_reflect (direction = Some "rtl")) as [Hrtl|Hltr]; cbn.
    + split; [intros _; left; split; assumption |].
      intros _. apply elem_of_cons. left. reflexivity.
    + split.
      * destruct (truthy (colorIsPreset PresetColorTypes color)); cbn.
        -- intros [Hin|Hin]%elem_of_cons; [congruence |].
           apply elem_of_nil in Hin. contradiction.
        -- intros Hin. apply elem_of_nil in Hin. contradiction.
      * intros [[_ Hrtl]|[Heq _]]; contradiction.
Qed.

(** X14: without a colour, absent or the empty string, the component adds
    no colour class and no inline style: the only class it can add is the
    rtl one, the overlay inner style is handed on as given and the arrow
    content gets no style. *)
Theorem no_color_no_styling
  (PresetColorTypes : list string) (getPlacements : jsval -> jsval -> placements)
  (props : Props.t) (ctx : Context.t) (st : Instance.t) :
  Props.color props = None \/ Props.color props = Some "" ->
  let out := render PresetColorTypes getPlacements props ctx st in
  classEntries (VObj (overlayModifiers PresetColorTypes (Rc.prefixCls out)
                        (Context.direction ctx) (Props.color props)))
  = (if bool_decide (Context.direction ctx = Some "rtl")
     then [Rc.prefixCls out ++ "-rtl"] else [])
  /\ Rc.overlayInnerStyle out = Props.overlayInnerStyle props
  /\ Rc.arrowContentStyle out = None.
Proof.
  intros Hcolor out. subst out.
  cbn [render Rc.prefixCls Rc.overlayInnerStyle Rc.arrowContentStyle].
  unfold overlayModifiers. cbn [obj_set]. rewrite modifier_key_eqb.
  destruct Hcolor as [-> | ->]; cbn;
    destruct (bool_decide (Context.direction ctx = Some "rtl")); repeat split.
Qed.

Lemma no_color_no_styling_witness :
  let out := render samplePresetColors sampleGetPlacements (colorProps None)
               sampleContext sampleInstance in
  (Props.color (colorProps None) = None \/ Props.color (colorProps None) = Some "")
  /\ Rc.overlayClassName out = ""
  /\ Rc.overlayInnerStyle out = None
  /\ Rc.arrowContentStyle out = None.
Proof.
  cbv zeta. split; [left; reflexivity |]. split; [reflexivity |].
  destruct (no_color_no_styling samplePresetColors sampleGetPlacements (colorProps None)
              sampleContext sampleInstance (or_introl eq_refl)) as (_ & Hinner & Harrow).
  split; [exact Hinner | exact Harrow].
Defined.

(** ** Popup alignment *)

Lemma findPlacement_first (pre rest : placements) (name : string) (pts : string * string) :
  (forall (n : string) (p : string * string), (n, p) ∈ pre -> p <> pts) ->
  findPlacement (pre ++ (name, pts) :: rest)%list pts = Some name.
Proof.
  intros Hpre. unfold findPlacement.
  induction pre as [|[n [p0 p1]] pre IH]; cbn.
  - rewrite !String.eqb_refl. reflexivity.
  - destruct (String.eqb_spec p0 (fst pts)) as [H0|H0], (String.eqb_spec p1 (snd pts)) as [H1|H1];
      cbn.
    + exfalso. apply (Hpre n (p0, p1)); [apply elem_of_cons; left; reflexivity |].
      destruct pts as [q0 q1]. cbn in H0, H1. subst. reflexivity.
    + apply IH. intros n' p' Hin. apply (Hpre n' p'). apply elem_of_cons. right. exact Hin.
    + apply IH. intros n' p' Hin. apply (Hpre n' p'). apply elem_of_cons. right. exact Hin.
    + apply IH. intros n' p' Hin. apply (Hpre n' p'). apply elem_of_cons. right. exact Hin.
Qed.

(** X15: the first entry of the table, in key order, whose two points are
    the reported ones decides the outcome, whatever follows it: a named entry
    sets the transform origin computed from its name, and an entry whose key
    is the empty string leaves the node as it was even when a later named
    entry has the same points. *)
Theorem first_matching_placement (getPlacements : jsval -> jsval -> placements)
  (props : Props.t) (domNode : Dom.t) (align : Align.t)
  (pre rest : placements) (name : string) :
  getTooltipPlacements getPlacements props = (pre ++ (name, Align.points align) :: rest)%list ->
  (forall (n : string) (p : string * string), (n, p) ∈ pre -> p <> Align.points align) ->
  onPopupAlign getPlacements props domNode align
  = if String.eqb name "" then domNode
    else {| Dom.width := Dom.width domNode; Dom.height := Dom.height domNode;
            Dom.transformOrigin :=
              originLeft name domNode align ++ " " ++ originTop name domNode align |}.
Proof.
  intros Htable Hpre. unfold onPopupAlign.
  rewrite Htable, (findPlacement_first pre rest name _ Hpre). reflexivity.
Qed.

Lemma first_matching_placement_witness :
  let table := [("left", ("cr", "cl")); ("", ("bc", "tc")); ("top", ("bc", "tc"))] in
  getTooltipPlacements sampleGetPlacements (tableProps table)
  = ([("left", ("cr", "cl"))] ++ ("", Align.points sampleAlign) :: [("top", ("bc", "tc"))])%list
  /\ onPopupAlign sampleGetPlacements (tableProps table) sampleDom sampleAlign = sampleDom.
Proof.
  cbv zeta. split; [reflexivity |].
  apply (first_matching_placement sampleGetPlacements
           (tableProps [("left", ("cr", "cl")); ("", ("bc", "tc")); ("top", ("bc", "tc"))])
           sampleDom sampleAlign [("left", ("cr", "cl"))] [("top", ("bc", "tc"))] ""
           eq_refl).
  intros n p Hin. apply elem_of_cons in Hin as [Hin|Hin].
  - injection Hin as _ ->. discriminate.
  - apply elem_of_nil in Hin. contradiction.
Defined.



(** X17: an alignment event only writes the transform origin, and the
    origin it writes does not depend on the one that was there: the node
    keeps its rectangle; a later event that matches a named placement gives
    the same node as if it had come alone; and the same event twice is the
    same as once. *)
Theorem onPopupAlign_last_event (getPlacements : jsval -> jsval -> placements)
  (props : Props.t) (domNode : Dom.t) (first last : Align.t) :
  (Dom.width (onPopupAlign getPlacements props domNode first) = Dom.width domNode
   /\ Dom.height (onPopupAlign getPlacements props domNode first) = Dom.height domNode)
  /\ (forall placement : string,
        findPlacement (getTooltipPlacements getPlacements props) (Align.points last)
        = Some placement ->
        placement <> "" ->
        onPopupAlign getPlacements props
          (onPopupAlign getPlacements props domNode first) last
        = onPopupAlign getPlacements props domNode last)
  /\ onPopupAlign getPlacements props
       (onPopupAlign getPlacements props domNode first) first
     = onPopupAlign getPlacements props domNode first.
Proof.
  assert (Dom.width (onPopupAlign getPlacements props domNode first) = Dom.width domNode
          /\ Dom.height (onPopupAlign getPlacements props domNode first) = Dom.height domNode)
    as [Hwidth Hheight].
  { unfold onPopupAlign.
    destruct (findPlacement _ (Align.points first)) as [name|]; [| split; reflexivity].
    destruct (String.eqb name ""); split; reflexivity. }
  split; [split; assumption |]. split.
  - intros placement Hfind Hne.
    unfold onPopupAlign at 1 3. rewrite Hfind, (proj2 (String.eqb_neq placement "") Hne).
    unfold originLeft, originTop. rewrite Hwidth, Hheight. reflexivity.
  - destruct (findPlacement (getTooltipPlacements getPlacements props) (Align.points first))
      as [name|] eqn:Hfind.
    + destruct (String.eqb_spec name "") as [->|Hne].
      * unfold onPopupAlign. rewrite !Hfind. reflexivity.
      * unfold onPopupAlign at 1. rewrite Hfind, (proj2 (String.eqb_neq name "") Hne).
        unfold originLeft, originTop. rewrite Hwidth, Hheight.
        unfold onPopupAlign. rewrite Hfind, (proj2 (String.eqb_neq name "") Hne).
        reflexivity.
    + unfold onPopupAlign. rewrite !Hfind. reflexivity.
Qed.

Lemma onPopupAlign_last_event_witness :
  let first := {| Align.points := ("cr", "cl"); Align.offset := (-4, 0) |} in
  findPlacement (getTooltipPlacements sampleGetPlacements noProps) (Align.points sampleAlign)
  = Some "top"
  /\ onPopupAlign sampleGetPlacements noProps
       (onPopupAlign sampleGetPlacements noProps sampleDom first) sampleAlign
     = onPopupAlign sampleGetPlacements noProps sampleDom sampleAlign.
Proof.
  cbv zeta. split; [reflexivity |].
  destruct (onPopupAlign_last_event sampleGetPlacements noProps sampleDom
              {| Align.points := ("cr", "cl"); Align.offset := (-4, 0) |} sampleAlign)
    as (_ & Hlast & _).
  apply (Hlast "top" eq_refl). discriminate.
Defined.

(** ** Aliases over a whole session *)

(** X18: for the pairs visible/open, defaultVisible/defaultOpen and
    onVisibleChange/onOpenChange, a props object that uses only the legacy
    names behaves like the one that gives the same members under the modern
    names, whichever of them are supplied, with or without content: the
    same state at mount, the same open state handed to the popup primitive
    in every state, and the same state and call log after any series of
    reported visibility changes. *)
Theorem legacy_names_equivalent (legacy modern : Props.t)
  (controlled : option jsval) (initial : jsval) (callback : option fn) :
  Props.open legacy = None -> Props.visible legacy = controlled ->
  Props.open modern = controlled -> Props.visible modern = None ->
  Props.defaultOpen legacy = VUndefined -> Props.defaultVisible legacy = initial ->
  Props.defaultOpen modern = initial -> Props.defaultVisible modern = VUndefined ->
  Props.onOpenChange legacy = None -> Props.onVisibleChange legacy = callback ->
  Props.onOpenChange modern = callback -> Props.onVisibleChange modern = None ->
  Props.title legacy = Props.title modern ->
  Props.overlay legacy = Props.overlay modern ->
  mount legacy = mount modern
  /\ (forall st : Instance.t, tempOpen legacy st = tempOpen modern st)
  /\ (forall (events : list bool) (st : Instance.t),
        relay legacy events st = relay modern events st).
Proof.
  intros Ho1 Hv1 Ho2 Hv2 Hdo1 Hdv1 Hdo2 Hdv2 Hc1 Hcv1 Hc2 Hcv2 Htitle Hoverlay.
  assert (mergedValue legacy = mergedValue modern) as Hmerged.
  { unfold mergedValue. rewrite Ho1, Hv1, Ho2, Hv2. cbn.
    destruct (get controlled); reflexivity. }
  assert (mergedDefaultValue legacy = mergedDefaultValue modern) as Hdefault.
  { unfold mergedDefaultValue. rewrite Hdo1, Hdv1, Hdo2, Hdv2. cbn.
    destruct initial; reflexivity. }
  assert (isNoTitle legacy = isNoTitle modern) as Hcontent.
  { unfold isNoTitle. rewrite Htitle, Hoverlay. reflexivity. }
  split; [| split].
  - unfold mount. rewrite Hmerged, Hdefault. reflexivity.
  - intros st. unfold tempOpen, open.
    rewrite Hmerged, Hcontent, Ho1, Hv1, Ho2, Hv2.
    destruct controlled; reflexivity.
  - assert (forall (vis : bool) (st : Instance.t),
              onOpenChange legacy vis st = onOpenChange modern vis st) as Hstep.
    { intros vis st. unfold onOpenChange.
      rewrite Hcontent, Hc1, Hcv1, Hc2, Hcv2.
      destruct callback; reflexivity. }
    intros events. induction events as [|vis events IH]; intros st; [reflexivity |].
    change (relay legacy (vis :: events) st)
      with (relay legacy events (onOpenChange legacy vis st)).
    change (relay modern (vis :: events) st)
      with (relay modern events (onOpenChange modern vis st)).
    rewrite Hstep. apply IH.
Qed.

Lemma legacy_names_equivalent_witness :
  (let legacy := aliasProps None (Some (VBool false)) VUndefined (VBool true) None (Some 3%nat) in
   let modern := aliasProps (Some (VBool false)) None (VBool true) VUndefined (Some 3%nat) None in
   mount legacy = mount modern
   /\ (forall st : Instance.t, tempOpen legacy st = tempOpen modern st)
   /\ (forall (events : list bool) (st : Instance.t),
         relay legacy events st = relay modern events st))
  /\ (let legacy := contentProps VUndefined VUndefined None (Some 3%nat) in
      let modern := contentProps VUndefined VUndefined (Some 3%nat) None in
      isNoTitle legacy = true
      /\ Props.visible legacy = None
      /\ mount legacy = mount modern
      /\ (forall st : Instance.t, tempOpen legacy st = tempOpen modern st)
      /\ (forall (events : list bool) (st : Instance.t),
            relay legacy events st = relay modern events st)).
Proof.
  cbv zeta. split.
  - apply (legacy_names_equivalent
             (aliasProps None (Some (VBool false)) VUndefined (VBool true) None (Some 3%nat))
             (aliasProps (Some (VBool false)) None (VBool true) VUndefined (Some 3%nat) None)
             (Some (VBool false)) (VBool true) (Some 3%nat));
      reflexivity.
  - split; [reflexivity | split; [reflexivity |]].
    apply (legacy_names_equivalent
             (contentProps VUndefined VUndefined None (Some 3%nat))
             (contentProps VUndefined VUndefined (Some 3%nat) None)
             None VUndefined (Some 3%nat));
      reflexivity.
Defined.

(** ** Deprecation warnings *)

Lemma deprecationWarnings_development (keys : gset string) :
  deprecationWarnings false keys
  = ((if bool_decide ("visible" ∈ keys)
      then [deprecationMessage "visible" "open"] else [])
     ++ (if bool_decide ("defaultVisible" ∈ keys)
         then [deprecationMessage "defaultVisible" "defaultOpen"] else [])
     ++ (if bool_decide ("onVisibleChange" ∈ keys)
         then [deprecationMessage "onVisibleChange" "onOpenChange"] else [])
     ++ (if bool_decide ("afterVisibleChange" ∈ keys)
         then [deprecationMessage "afterVisibleChange" "afterOpenChange"] else []))%list.
Proof.
  unfold deprecationWarnings, deprecatedNames. cbn [List.flat_map fst snd].
  rewrite app_nil_r. reflexivity.
Qed.

(** X19: the component warns about deprecated prop names only: there is no
    warning exactly when the build is a production build or none of
    [visible], [defaultVisible], [onVisibleChange], [afterVisibleChange] is a
    key of the props; and keys other than these four never change the
    warnings. *)
Theorem deprecationWarnings_only_deprecated (production : bool) (keys : gset string) :
  (deprecationWarnings production keys = [] <->
   production = true
   \/ (forall pair : string * string, pair ∈ deprecatedNames -> fst pair ∉ keys))
  /\ (forall other : string,
        other ∉ List.map fst deprecatedNames ->
        deprecationWarnings production ({[other]} ∪ keys)
        = deprecationWarnings production keys).
Proof.
  split.
  - destruct production; [split; [left; reflexivity | reflexivity] |].
    rewrite deprecationWarnings_development. split.
    + intros Hnone. right. intros pair Hpair.
      unfold deprecatedNames in Hpair.
      repeat (apply elem_of_cons in Hpair as [->|Hpair];
              [cbn [fst]; intros Hin; rewrite (bool_decide_eq_true_2 _ Hin) in Hnone;
               repeat (destruct (bool_decide _) in Hnone); discriminate Hnone |]).
      apply elem_of_nil in Hpair. contradiction.
    + intros [Habs|Hnone]; [discriminate Habs |].
      rewrite !bool_decide_eq_false_2; [reflexivity | | | |];
        refine (Hnone (_, _) _); unfold deprecatedNames;
        repeat (apply elem_of_cons; first [left; reflexivity | right]).
  - intros other Hother. destruct production; [reflexivity |].
    rewrite !deprecationWarnings_development.
    assert (forall name : string,
              name ∈ List.map fst deprecatedNames ->
              bool_decide (name ∈ {[other]} ∪ keys) = bool_decide (name ∈ keys)) as Hsame.
    { intros name Hname. apply bool_decide_ext. rewrite elem_of_union, elem_of_singleton.
      split; [intros [->|Hin]; [contradiction | exact Hin] | intros Hin; right; exact Hin]. }
    rewrite !Hsame by (cbn; repeat (apply elem_of_cons; first [left; reflexivity | right])).
    reflexivity.
Qed.

Lemma deprecationWarnings_only_deprecated_witness :
  ("title" ∉ List.map fst deprecatedNames)
  /\ deprecationWarnings false ({["title"]} ∪ {["visible"]})
     = deprecationWarnings false {["visible"]}.
Proof.
  assert ("title" ∉ List.map fst deprecatedNames) as Hother.
  { apply (bool_decide_unpack _). exact I. }
  split; [exact Hother |].
  destruct (deprecationWarnings_only_deprecated false {["visible"]}) as [_ Hsame].
  exact (Hsame "title" Hother).
Defined.

Example deprecationWarnings_visible :
  deprecationWarnings false {["visible"; "title"]}
  = ["`visible` is deprecated which will be removed in next major version, please use `open` instead."].
Proof. vm_compute. reflexivity. Qed.
